(** * StreamDeck BTC viewer: a shallow embedding of [price_display.py]

    The Python program polls a price API, formats the price, splits the
    formatted text over six key tiles, renders each tile and writes the tiles
    to the keys of a button panel.  This file embeds the program function by
    function and proves the properties of its specification.

    Conventions of the embedding:
    - a Python [str] is a [list ascii] ([str]); dictionary keys are [string];
    - a Python number is a [pynum]: an [int], or a [float] that is finite
      (the rational [Q] it denotes, so that the fixed-point presentation
      [.2f] is exact: the digits printed are those of the number rounded to
      hundredths, ties to even), the negative zero, an infinity or [nan].
      An [int] is formatted through its conversion to [float], which rounds
      it to 53 bits and raises [OverflowError] beyond the float range.  A
      rational written where a number is expected is the finite float of
      that value;
    - Python integers used as indices are [Z], with the slice rules for
      negative and out-of-range bounds written out;
    - a raised exception is the [Raise] case of [result];
    - I/O (HTTP, console, clock, device) is a state-and-exception monad over
      an explicit [world], which records what the program did as a trace of
      events.  The imaging library enters through the font metrics
      [textbbox] and the conversion [to_native_format], which the program
      is parametrised by; both are total functions here, so a font file
      that does not load and a panel without key images, for which the
      conversion fails, are outside the model. *)

From Stdlib Require Import ZArith QArith Qabs Qround List Ascii String Lia.
From stdpp Require Import base list gmap strings.

Set Warnings "-register-all".
Set Default Proof Using "Type".

Local Open Scope Z_scope.

(** ** Python strings *)

Module PyStr.

Definition str := list ascii.

(** A string literal of the source. *)
Definition lit (s : string) : str := list_ascii_of_string s.

Definition comma : ascii := ","%char.
Definition dot : ascii := "."%char.
Definition dollar : ascii := "$"%char.

Definition len (s : str) : Z := Z.of_nat (length s).

(** [s.replace(c, "")] for a one-character [c]. *)
Definition remove_char (c : ascii) (s : str) : str :=
  List.filter (fun x => negb (Ascii.eqb x c)) s.

(** [s.find(c)] for a one-character [c]: the lowest index, or [-1]. *)
Fixpoint find (c : ascii) (s : str) : Z :=
  match s with
  | [] => -1
  | x :: s' =>
      if Ascii.eqb x c then 0
      else let i := find c s' in if i =? -1 then -1 else 1 + i
  end.

(** [s.split(c)] for a one-character [c]; always at least one piece. *)
Fixpoint split (c : ascii) (s : str) : list str :=
  match s with
  | [] => [[]]
  | x :: s' =>
      if Ascii.eqb x c then [] :: split c s'
      else match split c s' with
           | p :: ps => (x :: p) :: ps
           | [] => [[x]]
           end
  end.

(** A slice bound, as Python normalises it against the length [n]. *)
Definition clamp (n i : Z) : Z :=
  let j := if i <? 0 then i + n else i in
  Z.max 0 (Z.min n j).

(** [s[lo:hi]] *)
Definition slice (s : str) (lo hi : Z) : str :=
  let a := clamp (len s) lo in
  let b := clamp (len s) hi in
  take (Z.to_nat (b - a)) (drop (Z.to_nat a) s).

(** [s[lo:]] *)
Definition slice_from (s : str) (lo : Z) : str :=
  drop (Z.to_nat (clamp (len s) lo)) s.

Definition is_digit (c : ascii) : bool :=
  let n := nat_of_ascii c in
  (Nat.leb 48 n && Nat.leb n 57)%bool.


End PyStr.
Import PyStr.

(** ** Exceptions *)

Inductive exn :=
  | RequestException
  | JSONDecodeError
  | AttributeError
  | TypeError
  | ValueError
  | IndexError
  | OverflowError.

Inductive result (A : Type) :=
  | Ok (a : A)
  | Raise (e : exn).
Arguments Ok {A} a.
Arguments Raise {A} e.

Definition rbind {A B} (r : result A) (k : A -> result B) : result B :=
  match r with
  | Ok a => k a
  | Raise e => Raise e
  end.

(** ** Number formatting: the format specs [,.2f] and [+.2f] *)

Module Fmt.

(** The character of a decimal digit [0 <= d <= 9]. *)
Definition digit_char (d : Z) : ascii := ascii_of_nat (48 + Z.to_nat d).

(** Decimal digits of a positive number, most significant first. *)
Fixpoint pos_digits (fuel : nat) (n : Z) (acc : str) : str :=
  match fuel with
  | O => acc
  | S fuel' =>
      let acc' := digit_char (n mod 10) :: acc in
      if n / 10 =? 0 then acc' else pos_digits fuel' (n / 10) acc'
  end.

(** [str(n)] for [0 <= n]; a number has at most [log2 n + 1] digits. *)
Definition decimal (n : Z) : str :=
  pos_digits (S (Z.to_nat (Z.log2 n))) n [].

(** Thousands separators, on the reversed digit string. *)
Fixpoint group_rev (r : str) : str :=
  match r with
  | a :: b :: c :: ((_ :: _) as rest) => a :: b :: c :: comma :: group_rev rest
  | _ => r
  end.

Definition group_thousands (s : str) : str := rev (group_rev (rev s)).

(** Round to the nearest integer, ties to even: the rounding of the
    correctly rounded decimal conversion behind [%f]. *)
Definition round_half_even (x : Q) : Z :=
  let n := Qnum x in
  let d := Zpos (Qden x) in
  let fl := n / d in
  match 2 * (n mod d) ?= d with
  | Lt => fl
  | Gt => fl + 1
  | Eq => if Z.even fl then fl else fl + 1
  end.

(** The magnitude of [x] in hundredths, as [.2f] prints it. *)
Definition hundredths (x : Q) : Z := round_half_even (Qabs x * 100).

Definition sign_str (plus : bool) (x : Q) : str :=
  match (x ?= 0)%Q with
  | Lt => lit "-"
  | _ => if plus then lit "+" else []
  end.

Definition int_digits (x : Q) : str := decimal (hundredths x / 100).

Definition frac_digits (x : Q) : str :=
  let h := hundredths x in
  [digit_char (h / 10 mod 10); digit_char (h mod 10)].

(** [f"{x:,.2f}"] *)
Definition format_comma_2f (x : Q) : str :=
  sign_str false x ++ group_thousands (int_digits x) ++ dot :: frac_digits x.

(** [f"{x:+.2f}"] *)
Definition format_plus_2f (x : Q) : str :=
  sign_str true x ++ int_digits x ++ dot :: frac_digits x.

End Fmt.
Import Fmt.

(** ** Python numbers *)

Inductive pyfloat :=
  | Finite (q : Q)   (* a finite float other than [-0.0], by its value *)
  | NegZero
  | PosInf
  | NegInf
  | NaN.

Inductive pynum :=
  | PFloat (f : pyfloat)
  | PInt (z : Z).

Coercion Finite : Q >-> pyfloat.
Coercion PFloat : pyfloat >-> pynum.

Module Num.

Definition is_finite (f : pyfloat) : bool :=
  match f with
  | Finite _ | NegZero => true
  | PosInf | NegInf | NaN => false
  end.

(** [float(z)]: the nearest float, ties to the even 53-bit significand;
    [OverflowError] when that is beyond the largest float. *)
Definition float_of_int (z : Z) : result pyfloat :=
  let a := Z.abs z in
  if a <? 2 ^ 53 then Ok (Finite (inject_Z z))
  else
    let e := Z.log2 a - 52 in
    let m := round_half_even (a # Z.to_pos (2 ^ e)) in
    let v := m * 2 ^ e in
    if v <? 2 ^ 1024 then Ok (Finite (inject_Z (Z.sgn z * v)))
    else Raise OverflowError.

(** The float a format spec ending in [f] prints. *)
Definition to_float (n : pynum) : result pyfloat :=
  match n with
  | PFloat f => Ok f
  | PInt z => float_of_int z
  end.

(** [f"{x:,.2f}"] for a float. *)
Definition float_comma_2f (x : pyfloat) : str :=
  match x with
  | Finite q => format_comma_2f q
  | NegZero => lit "-0.00"
  | PosInf => lit "inf"
  | NegInf => lit "-inf"
  | NaN => lit "nan"
  end.

(** [f"{x:+.2f}"] for a float. *)
Definition float_plus_2f (x : pyfloat) : str :=
  match x with
  | Finite q => format_plus_2f q
  | NegZero => lit "-0.00"
  | PosInf => lit "+inf"
  | NegInf => lit "-inf"
  | NaN => lit "+nan"
  end.

(** [f"{n:,.2f}"] *)
Definition num_comma_2f (n : pynum) : result str :=
  rbind (to_float n) (fun x => Ok (float_comma_2f x)).

(** [f"{n:+.2f}"] *)
Definition num_plus_2f (n : pynum) : result str :=
  rbind (to_float n) (fun x => Ok (float_plus_2f x)).

Definition Qgtb (a b : Q) : bool :=
  match (a ?= b)%Q with
  | Gt => true
  | _ => false
  end.

Definition Qltb (a b : Q) : bool :=
  match (a ?= b)%Q with
  | Lt => true
  | _ => false
  end.

(** [n > 0] *)
Definition gt_zero (n : pynum) : bool :=
  match n with
  | PFloat (Finite q) => Qgtb q 0
  | PFloat PosInf => true
  | PFloat _ => false
  | PInt z => 0 <? z
  end.

(** [n < 0] *)
Definition lt_zero (n : pynum) : bool :=
  match n with
  | PFloat (Finite q) => Qltb q 0
  | PFloat NegInf => true
  | PFloat _ => false
  | PInt z => z <? 0
  end.

End Num.
Import Num.

(** ** The tile texts of [create_price_images] (source lines 71-94) *)

Definition arrow_of (trend : Z) : str :=
  if 0 <? trend then lit "▲" else if trend <? 0 then lit "▼" else lit "-".

(** [a, b = l]: unpacking a list into exactly two names. *)
Definition unpack2 {A} (l : list A) : result (A * A) :=
  match l with
  | [a; b] => Ok (a, b)
  | _ => Raise ValueError
  end.

(** [s[0]] *)
Definition first_char (s : str) : result ascii :=
  match s with
  | c :: _ => Ok c
  | [] => Raise IndexError
  end.

Definition tile_texts (price : pynum) (trend : Z) (percent_change : pynum)
  : result (list str) :=
  rbind (num_comma_2f price) (fun price_str =>
  let arrow := arrow_of trend in
  rbind (unpack2 (split dot price_str)) (fun '(integer_part, decimal_part) =>
  let integer_digits := remove_char comma integer_part in
  rbind (first_char integer_digits) (fun d0 =>
  let tile1_text := dollar :: [d0] in
  let comma_index := find comma integer_part in
  let tile2_text :=
    if negb (comma_index =? -1)
    then slice integer_part 1 (comma_index + 1)
    else slice_from integer_part 1 ++ lit "," in
  let tile3_start_index := 1 + len (remove_char comma tile2_text) in
  let tile3_digits := slice_from integer_digits tile3_start_index in
  let tile3_text := tile3_digits in
  let tile4_text := lit "." ++ decimal_part in
  rbind (num_plus_2f percent_change) (fun percent_str =>
  let tile5_text := percent_str ++ lit "%" in
  let tile6_text := arrow in
  Ok [tile1_text; tile2_text; tile3_text; tile4_text; tile5_text;
      tile6_text])))).
Arguments tile_texts price%_Q trend%_Z percent_change%_Q.


(** ** Configuration (source lines 14-16) *)

Definition REFRESH_INTERVAL : Z := 30.
Definition FONT_PATH : string := "DejaVuSansCondensed.ttf".
Definition KEY_WIDTH : Z := 72.
Definition KEY_HEIGHT : Z := 72.

(** ** Images

    An image is what was done to it: the canvas [Image.new] made and the
    text drawn on it since.  A canvas without drawings is a solid bitmap of
    its background colour. *)

Definition rgb : Type := Z * Z * Z.
Definition black : rgb := (0, 0, 0).
Definition white : rgb := (255, 255, 255).
Definition green : rgb := (0, 255, 0).
Definition red : rgb := (255, 0, 0).

Record font := truetype { font_file : string; font_size : Z }.

Record draw_op := DrawText {
  text_xy : Z * Z;
  text_str : str;
  text_fill : rgb;
  text_font : font
}.

Record image := {
  img_mode : string;
  img_size : Z * Z;
  img_background : rgb;
  img_draws : list draw_op
}.

Definition Image_new (mode : string) (size : Z * Z) (color : rgb) : image :=
  {| img_mode := mode; img_size := size; img_background := color;
     img_draws := [] |}.

Definition draw_text (img : image) (xy : Z * Z) (text : str) (fill : rgb)
    (f : font) : image :=
  {| img_mode := img_mode img; img_size := img_size img;
     img_background := img_background img;
     img_draws := img_draws img ++ [DrawText xy text fill f] |}.

(** The text drawn on a tile. *)
Definition drawn_text (img : image) : str :=
  match img_draws img with
  | [d] => text_str d
  | _ => []
  end.

Definition color_of (trend : Z) : rgb :=
  if 0 <? trend then green else if trend <? 0 then red else white.

Definition font_sizes : list Z := [42; 42; 37; 39; 20; 48].
Definition y_offset_for_price_and_arrow : Z := 6.

(** [str(n)] for a Python integer. *)
Definition int_str (n : Z) : str :=
  if n <? 0 then lit "-" ++ decimal (- n) else decimal n.

Section Rendering.

(** The font metrics of the imaging library: the bounding box
    [(left, top, right, bottom)] of a text drawn at the origin. *)
Variable textbbox : font -> str -> Z * Z * Z * Z.

Definition create_tile_image (text : str) (color : rgb) (font_path : string)
    (font_size : Z) (key_width key_height : Z) (y_offset : Z) : image :=
  let img := Image_new "RGB" (key_width, key_height) black in
  let fnt := truetype font_path font_size in
  let '(x0, y0, x1, y1) := textbbox fnt text in
  let text_width := x1 - x0 in
  let text_height := y1 - y0 in
  let x := (key_width - text_width) / 2 in
  let y := (key_height - text_height) / 2 - y_offset in
  draw_text img (x, y) text color fnt.

(** The loop of source lines 99-104 over [enumerate(tile_texts)], from
    index [i] on, appending to [images]. *)
Fixpoint render_tiles (color : rgb) (i : nat) (texts : list str)
    (images : list image) : result (list image) :=
  match texts with
  | [] => Ok images
  | text :: rest =>
      match font_sizes !! i with
      | None => Raise IndexError
      | Some size =>
          let img :=
            if bool_decide (i ∈ [0; 1; 2; 3; 5]%nat)
            then create_tile_image text color FONT_PATH size
                   KEY_WIDTH KEY_HEIGHT y_offset_for_price_and_arrow
            else create_tile_image text color FONT_PATH size
                   KEY_WIDTH KEY_HEIGHT 0 in
          render_tiles color (S i) rest (images ++ [img])
      end
  end.

Definition create_price_images (price : pynum) (trend : Z)
    (percent_change : pynum) : result (list image) :=
  rbind (tile_texts price trend percent_change) (fun texts =>
  let color := color_of trend in
  render_tiles color 0 texts []).

(** The image [update_timer] builds (source lines 117-129). *)
Definition timer_image (seconds_left : Z) : image :=
  let fnt := truetype FONT_PATH 20 in
  let img := Image_new "RGB" (KEY_WIDTH, KEY_HEIGHT) black in
  let text := int_str seconds_left ++ lit "s" in
  let '(x0, y0, x1, y1) := textbbox fnt text in
  let text_width := x1 - x0 in
  let text_height := y1 - y0 in
  let x := (KEY_WIDTH - text_width) / 2 in
  let y := (KEY_HEIGHT - text_height) / 2 in
  draw_text img (x, y) text white fnt.

(** How far above the vertically centred position the text of a tile was
    drawn. *)
Definition vertical_offset (img : image) : option Z :=
  match img_draws img with
  | [DrawText (_, y) text _ fnt] =>
      let '(_, y0, _, y1) := textbbox fnt text in
      Some ((snd (img_size img) - (y1 - y0)) / 2 - y)
  | _ => None
  end.

End Rendering.
Arguments create_price_images textbbox price%_Q trend%_Z percent_change%_Q.

(** ** Python values of a decoded JSON body *)

Inductive pyval :=
  | PyNone
  | PyBool (b : bool)
  | PyNum (n : pynum)
  | PyStr (s : str)
  | PyList (l : list pyval)
  | PyDict (m : gmap string pyval).

Arguments PyNum n%_Q.

Definition is_none (v : pyval) : bool :=
  match v with
  | PyNone => true
  | _ => false
  end.

(** [d.get(key, default)]; only a dict has the method. *)
Definition py_get (d : pyval) (key : string) (default : pyval) : result pyval :=
  match d with
  | PyDict m =>
      match m !! key with
      | Some v => Ok v
      | None => Ok default
      end
  | _ => Raise AttributeError
  end.

(** The number an ordering comparison with an [int] sees; [bool] is a
    subclass of [int], every other value raises [TypeError]. *)
Definition as_number (v : pyval) : result pynum :=
  match v with
  | PyNum n => Ok n
  | PyBool b => Ok (PInt (if b then 1 else 0))
  | _ => Raise TypeError
  end.

(** The number a format spec ending in [f] prints; a [str] rejects the spec
    with [ValueError], other values with [TypeError]. *)
Definition format_operand (v : pyval) : result pynum :=
  match v with
  | PyNum n => Ok n
  | PyBool b => Ok (PInt (if b then 1 else 0))
  | PyStr _ => Raise ValueError
  | _ => Raise TypeError
  end.

(** Source line 49:
    [trend = 1 if change_24h > 0 else -1 if change_24h < 0 else 0]. *)
Definition trend_of_change (change_24h : pynum) : Z :=
  if gt_zero change_24h then 1 else if lt_zero change_24h then -1 else 0.
Arguments trend_of_change change_24h%_Q.

(** ** The world: HTTP endpoint, console, clock and device *)

Record response := {
  status_code : Z;
  body : option pyval   (* [None]: the body is not JSON *)
}.

Inductive http_outcome :=
  | ConnectionFailed
  | Responded (r : response).

Inductive message :=
  | MsgRateLimit
  | MsgUnexpectedResponse (data : pyval)
  | MsgFetchError (e : exn)
  | MsgPrice (price_text pct_text arrow : str)
  | MsgNoDecks.

Definition API_URL : string :=
  "https://api.coingecko.com/api/v3/simple/price?ids=bitcoin&vs_currencies=usd&include_24hr_change=true".

Section Program.

Variable textbbox : font -> str -> Z * Z * Z * Z.

(** The device's native key bitmap and the conversion to it. *)
Context {native : Type}.
Variable to_native_format : image -> native.

Inductive event :=
  | EvGet (url : string)
  | EvPrint (m : message)
  | EvSleep (seconds : Z)
  | EvSetKeyImage (key : Z) (img : native).

Record world := {
  http : nat -> http_outcome;  (* what the n-th request will meet *)
  requests : nat;              (* requests made so far *)
  keys : list native;          (* the bitmap on each key of the deck *)
  trace : list event           (* what the program did, oldest first *)
}.

Definition emit (e : event) (w : world) : world :=
  {| http := http w; requests := requests w; keys := keys w;
     trace := trace w ++ [e] |}.

(** *** The monad of the program's effects *)

Definition M (A : Type) : Type := world -> result A * world.

Definition ret {A} (a : A) : M A := fun w => (Ok a, w).

Definition bind {A B} (m : M A) (k : A -> M B) : M B :=
  fun w =>
    match m w with
    | (Ok a, w') => k a w'
    | (Raise e, w') => (Raise e, w')
    end.

Definition lift {A} (r : result A) : M A := fun w => (r, w).

(** [try: body / except Exception as e: handler e] *)
Definition try_except {A} (body : M A) (handler : exn -> M A) : M A :=
  fun w =>
    match body w with
    | (Ok a, w') => (Ok a, w')
    | (Raise e, w') => handler e w'
    end.

Notation "x <- m ;; k" := (bind m (fun x => k))
  (at level 100, m at next level, right associativity).
Notation "m ;;; k" := (bind m (fun _ => k))
  (at level 100, right associativity).

Fixpoint for_each {A} (l : list A) (body : A -> M unit) : M unit :=
  match l with
  | [] => ret tt
  | x :: l' => body x ;;; for_each l' body
  end.

(** *** Primitive effects *)

Definition print (m : message) : M unit :=
  fun w => (Ok tt, emit (EvPrint m) w).

Definition sleep (seconds : Z) : M unit :=
  fun w => (Ok tt, emit (EvSleep seconds) w).

Definition requests_get (url : string) : M response :=
  fun w =>
    let w' := {| http := http w; requests := S (requests w);
                 keys := keys w; trace := trace w ++ [EvGet url] |} in
    match http w (requests w) with
    | ConnectionFailed => (Raise RequestException, w')
    | Responded r => (Ok r, w')
    end.

Definition response_json (r : response) : result pyval :=
  match body r with
  | Some data => Ok data
  | None => Raise JSONDecodeError
  end.

(** [deck.key_count()] *)
Definition key_count : M Z :=
  fun w => (Ok (Z.of_nat (length (keys w))), w).

(** [deck.set_key_image(key, img)].  The device library rejects the index
    with [if min(max(key, 0), KEY_COUNT) != key: raise IndexError], so the
    index [KEY_COUNT] itself passes: that write is sent and reaches no key
    (the list update below does nothing there). *)
Definition set_key_image (key : Z) (img : native) : M unit :=
  fun w =>
    if (0 <=? key) && (key <=? Z.of_nat (length (keys w)))
    then (Ok tt,
          {| http := http w; requests := requests w;
             keys := <[Z.to_nat key := img]> (keys w);
             trace := trace w ++ [EvSetKeyImage key img] |})
    else (Raise IndexError, w).

(** *** [fetch_price_and_trend] (source lines 29-54) *)

Definition unavailable : pyval * Z * pyval := (PyNone, 0, PyNum (PInt 0)).

Definition fetch_body : M (pyval * Z * pyval) :=
  response <- requests_get API_URL ;;
  if status_code response =? 429 then
    print MsgRateLimit ;;;
    sleep 60 ;;;
    ret unavailable
  else
    data <- lift (response_json response) ;;
    btc <- lift (py_get data "bitcoin" (PyDict ∅)) ;;
    price <- lift (py_get btc "usd" PyNone) ;;
    change_24h <- lift (py_get btc "usd_24h_change" PyNone) ;;
    if is_none price || is_none change_24h then
      print (MsgUnexpectedResponse data) ;;;
      ret unavailable
    else
      change <- lift (as_number change_24h) ;;
      let trend := trend_of_change change in
      ret (price, trend, change_24h).

Definition fetch_price_and_trend : M (pyval * Z * pyval) :=
  try_except fetch_body
    (fun e => print (MsgFetchError e) ;;; ret unavailable).

(** *** The device sink (source lines 108-139) *)

Definition key_map : list Z := [5; 6; 7; 8; 4; 9].

(** The loop over [enumerate(tile_images)], from index [i] on. *)
Fixpoint push_from (i : nat) (tile_images : list image) : M unit :=
  match tile_images with
  | [] => ret tt
  | img :: rest =>
      key_index <- lift (match key_map !! i with
                         | Some k => Ok k
                         | None => Raise IndexError
                         end) ;;
      let key_img := to_native_format img in
      set_key_image key_index key_img ;;;
      push_from (S i) rest
  end.

Definition push_to_streamdeck_tile_images (tile_images : list image)
  : M unit :=
  push_from 0 tile_images.

Definition update_timer (seconds_left : Z) : M unit :=
  let key_img := to_native_format (timer_image textbbox seconds_left) in
  set_key_image 10 key_img.

Definition blank_native : native :=
  to_native_format (Image_new "RGB" (KEY_WIDTH, KEY_HEIGHT) black).

Definition fill_unused_keys (used_keys : list Z) : M unit :=
  n <- key_count ;;
  for_each (seqZ 0 n) (fun key =>
    if bool_decide (key ∉ used_keys)
    then set_key_image key blank_native
    else ret tt).

(** The body of the loop of [fill_unused_keys], named for the proofs. *)
Definition blank_step (used_keys : list Z) (key : Z) : M unit :=
  if bool_decide (key ∉ used_keys)
  then set_key_image key blank_native
  else ret tt.

(** *** The driver loop (source lines 150-166) *)

Definition used_keys : list Z := [4; 5; 6; 7; 8; 9; 10].

(** [range(n, 0, -1)] *)
Definition range_down (n : Z) : list Z := rev (seqZ 1 n).

(** One pass through the body of [while True]. *)
Definition loop_body : M unit :=
  fetched <- fetch_price_and_trend ;;
  let '(price, trend, percent_change) := fetched in
  if is_none price then
    sleep REFRESH_INTERVAL
  else
    p <- lift (format_operand price) ;;
    price_text <- lift (num_comma_2f p) ;;
    c <- lift (format_operand percent_change) ;;
    percent_text <- lift (num_plus_2f c) ;;
    print (MsgPrice price_text percent_text (arrow_of trend)) ;;;
    tile_images <- lift (create_price_images textbbox p trend c) ;;
    push_to_streamdeck_tile_images tile_images ;;;
    fill_unused_keys used_keys ;;;
    for_each (range_down REFRESH_INTERVAL) (fun i =>
      update_timer i ;;;
      sleep 1).

(** The first [n] passes of [while True]; a raised exception ends the
    loop with the program. *)
Fixpoint main_loop (n : nat) : M unit :=
  match n with
  | O => ret tt
  | S n' => loop_body ;;; main_loop n'
  end.

(** [main], for [decks] panels found by the enumeration; the world's
    [keys] are those of the first. *)
Definition main (decks : nat) (n : nat) : M unit :=
  if (decks =? 0)%nat then print MsgNoDecks
  else main_loop n.

(** The wait phase of a pass (source lines 164-166), named for the
    proofs. *)
Definition countdown : M unit :=
  for_each (range_down REFRESH_INTERVAL) (fun i =>
    update_timer i ;;;
    sleep 1).

End Program.

(** ** Vocabulary of the specification *)

Definition digit (c : ascii) : Prop := is_digit c = true.

(** The number a digit string denotes. *)
Definition digit_value (c : ascii) : Z := Z.of_nat (nat_of_ascii c) - 48.

Definition value (s : str) : Z :=
  fold_left (fun v c => 10 * v + digit_value c) s 0.



(** The text before the decimal point of [f"{x:,.2f}"]. *)
Definition integer_part_of (x : Q) : str :=
  sign_str false x ++ group_thousands (int_digits x).

Definition strs (l : list string) : list str := map lit l.

(** The binary floating-point number that the literal [1234.56] denotes. *)
Definition double_1234_56 : Q := 2714826150374277 # 2199023255552.

(** The pure part of the [try] block of [fetch_price_and_trend] behind
    [response.json()]: [Ok None] where the source prints the unexpected
    response and gives up. *)
Definition parse_quote (data : pyval) : result (option (pyval * Z * pyval)) :=
  rbind (py_get data "bitcoin" (PyDict ∅)) (fun btc =>
  rbind (py_get btc "usd" PyNone) (fun price =>
  rbind (py_get btc "usd_24h_change" PyNone) (fun change_24h =>
  if is_none price || is_none change_24h then Ok None
  else rbind (as_number change_24h) (fun change =>
       Ok (Some (price, trend_of_change change, change_24h)))))).

(** The decoded body carries the field [name] of the asset, and it is not
    null. *)
Definition has_field (data : pyval) (name : string) : Prop :=
  exists m b v,
    data = PyDict m /\ m !! "bitcoin" = Some (PyDict b)
    /\ b !! name = Some v /\ v ≠ PyNone.

(** The world after the request of [fetch_price_and_trend] was sent. *)
Definition requested {native} (w : @world native) : world :=
  {| http := http w; requests := S (requests w); keys := keys w;
     trace := trace w ++ [EvGet API_URL] |}.

(** The ways a fetch fails: no answer, rate limiting, a body that is not
    JSON, a missing price or change field, any exception raised in the
    [try] block. *)
Inductive failure_mode {native} (w : @world native) : Prop :=
  | fm_network :
      http w (requests w) = ConnectionFailed -> failure_mode w
  | fm_rate_limited r :
      http w (requests w) = Responded r -> status_code r = 429 ->
      failure_mode w
  | fm_malformed_body r :
      http w (requests w) = Responded r -> body r = None -> failure_mode w
  | fm_missing_field r data name :
      http w (requests w) = Responded r -> body r = Some data ->
      name ∈ ["usd"; "usd_24h_change"]%string -> ~ has_field data name ->
      failure_mode w
  | fm_raised e w' :
      fetch_body w = (Raise e, w') -> failure_mode w.

(** *** Sample inputs *)

(** A font metric: every glyph half as wide as the font is high. *)
Definition sample_textbbox (f : font) (text : str) : Z * Z * Z * Z :=
  (0, 0, len text * font_size f / 2, font_size f).

(** A 15-key deck showing white keys, behind an API that does not answer. *)
Definition offline_world : @world image :=
  {| http := fun _ => ConnectionFailed; requests := 0;
     keys := replicate 15 (Image_new "RGB" (KEY_WIDTH, KEY_HEIGHT) white);
     trace := [] |}.

(** The same deck behind an API that answers every request with HTTP 429. *)
Definition rate_limited_world : @world image :=
  {| http := fun _ => Responded {| status_code := 429; body := None |};
     requests := 0;
     keys := replicate 15 (Image_new "RGB" (KEY_WIDTH, KEY_HEIGHT) white);
     trace := [] |}.

(** The same deck behind an API that quotes 12,345.67, down 1.5 percent. *)
Definition quoting_world : @world image :=
  {| http := fun _ =>
       Responded
         {| status_code := 200;
            body := Some (PyDict {[ "bitcoin"%string :=
                     PyDict (<[ "usd"%string := PyNum (1234567 # 100) ]>
                             {[ "usd_24h_change"%string :=
                                  PyNum (- (3 # 2))%Q ]}) ]}) |};
     requests := 0;
     keys := replicate 15 (Image_new "RGB" (KEY_WIDTH, KEY_HEIGHT) white);
     trace := [] |}.

(** The tiles of the price 12,345.67, up 1.23 percent. *)
Definition sample_tiles : list image :=
  match create_price_images sample_textbbox (1234567 # 100) 1 (123 # 100) with
  | Ok images => images
  | Raise _ => []
  end.

(** The offline deck after the sample tiles were pushed. *)
Definition pushed_world : @world image :=
  snd (push_to_streamdeck_tile_images id sample_tiles offline_world).

(** The JSON object [{"usd": price, "usd_24h_change": change_24h}]. *)
Definition sample_asset (price change_24h : pyval) : gmap string pyval :=
  <[ "usd"%string := price ]> {[ "usd_24h_change"%string := change_24h ]}.

(** The JSON object [{"bitcoin": {"usd": price, "usd_24h_change":
    change_24h}}]. *)
Definition sample_data (price change_24h : pyval) : gmap string pyval :=
  {[ "bitcoin"%string := PyDict (sample_asset price change_24h) ]}.

Definition sample_response (price change_24h : pyval) : response :=
  {| status_code := 200;
     body := Some (PyDict (sample_data price change_24h)) |}.

(** A deck of [n] white keys behind an API that answers every request with
    status 200 and the body [sample_data price change_24h]. *)
Definition answering_world (n : nat) (price change_24h : pyval)
  : @world image :=
  {| http := fun _ => Responded (sample_response price change_24h);
     requests := 0;
     keys := replicate n (Image_new "RGB" (KEY_WIDTH, KEY_HEIGHT) white);
     trace := [] |}.

(** The world after [img] was written to the key [key]. *)
Definition after_write {native} (key : Z) (img : native) (w : @world native)
  : world :=
  {| http := http w; requests := requests w;
     keys := <[Z.to_nat key := img]> (keys w);
     trace := trace w ++ [EvSetKeyImage key img] |}.



(** The solid black bitmap of the key size. *)
Definition solid_black : image :=
  {| img_mode := "RGB"; img_size := (72, 72); img_background := (0, 0, 0);
     img_draws := [] |}.

(** The event of showing [seconds_left] on the countdown key. *)
Definition timer_event {native} (textbbox : font -> str -> Z * Z * Z * Z)
    (to_native_format : image -> native) (seconds_left : Z)
  : @event native :=
  EvSetKeyImage 10 (to_native_format (timer_image textbbox seconds_left)).

(** The seconds slept in a trace. *)
Definition slept {native} (evs : list (@event native)) : Z :=
  foldr (fun e total =>
           match e with
           | EvSleep seconds => seconds + total
           | _ => total
           end) 0 evs.

(** * Properties *)

(** ** Python strings *)

Module PyStrFacts.

Lemma eqb_comma_false (c : ascii) : c ≠ comma -> Ascii.eqb c comma = false.
Proof. intros H. apply Ascii.eqb_neq, H. Qed.

Lemma remove_char_app c (s t : str) :
  remove_char c (s ++ t) = remove_char c s ++ remove_char c t.
Proof. apply List.filter_app. Qed.

Lemma remove_char_absent c (s : str) : c ∉ s -> remove_char c s = s.
Proof.
  induction s as [|x s IH]; intros Hc; [reflexivity|].
  apply not_elem_of_cons in Hc as [Hx Hs]. simpl.
  destruct (Ascii.eqb_spec x c) as [->|_]; [congruence|].
  simpl. f_equal. apply IH, Hs.
Qed.

Lemma remove_char_not_elem c (s : str) : c ∉ remove_char c s.
Proof.
  induction s as [|x s IH]; simpl; [apply not_elem_of_nil|].
  destruct (Ascii.eqb_spec x c) as [->|Hx]; simpl; [exact IH|].
  apply not_elem_of_cons. split; [congruence | exact IH].
Qed.

(** [find] returns the index of the first occurrence, or [-1] when there
    is none. *)
Lemma find_range c (s : str) : -1 <= find c s < len s \/ s = [].
Proof.
  induction s as [|x s IH]; [right; reflexivity | left].
  unfold len in *. simpl find. rewrite length_cons.
  destruct (Ascii.eqb x c); [lia|].
  destruct IH as [IH| ->]; [|simpl; lia].
  destruct (Z.eqb_spec (find c s) (-1)); lia.
Qed.

Lemma find_absent c (s : str) : c ∉ s -> find c s = -1.
Proof.
  induction s as [|x s IH]; intros Hc; [reflexivity|].
  apply not_elem_of_cons in Hc as [Hx Hs]. simpl.
  destruct (Ascii.eqb_spec x c) as [->|_]; [congruence|].
  rewrite (IH Hs). reflexivity.
Qed.

Lemma find_first c (pre post : str) :
  c ∉ pre -> find c (pre ++ c :: post) = len pre.
Proof.
  induction pre as [|x pre IH]; intros Hc; simpl.
  - rewrite Ascii.eqb_refl. reflexivity.
  - apply not_elem_of_cons in Hc as [Hx Hs].
    destruct (Ascii.eqb_spec x c) as [->|_]; [congruence|].
    rewrite (IH Hs). unfold len. rewrite length_cons.
    destruct (Z.eqb_spec (Z.of_nat (length pre)) (-1)); lia.
Qed.

Lemma find_cases c (s : str) :
  ((c ∉ s) /\ find c s = -1)
  \/ (exists pre post, s = pre ++ c :: post /\ (c ∉ pre) /\ find c s = len pre).
Proof.
  destruct (decide (c ∈ s)) as [Hin|Hout].
  - right. apply list_elem_of_split_l in Hin as (pre & post & -> & Hpre).
    exists pre, post. split; [reflexivity|]. split; [exact Hpre|].
    apply find_first, Hpre.
  - left. split; [exact Hout | apply find_absent, Hout].
Qed.

Lemma split_absent c (s : str) : c ∉ s -> split c s = [s].
Proof.
  induction s as [|x s IH]; intros Hc; [reflexivity|].
  apply not_elem_of_cons in Hc as [Hx Hs]. simpl.
  destruct (Ascii.eqb_spec x c) as [->|_]; [congruence|].
  rewrite (IH Hs). reflexivity.
Qed.

Lemma split_once c (a b : str) :
  c ∉ a -> c ∉ b -> split c (a ++ c :: b) = [a; b].
Proof.
  intros Ha Hb. induction a as [|x a IH]; simpl.
  - rewrite Ascii.eqb_refl, (split_absent _ _ Hb). reflexivity.
  - apply not_elem_of_cons in Ha as [Hx Ha].
    destruct (Ascii.eqb_spec x c) as [->|_]; [congruence|].
    rewrite (IH Ha). reflexivity.
Qed.

Lemma clamp_inside n i : 0 <= i <= n -> clamp n i = i.
Proof. unfold clamp. intros H. destruct (Z.ltb_spec i 0); lia. Qed.

Lemma clamp_beyond n i : 0 <= n <= i -> clamp n i = n.
Proof. unfold clamp. intros H. destruct (Z.ltb_spec i 0); lia. Qed.

(** [(x + pre + mid)[1 : 1 + len(pre)] = pre] *)
Lemma slice_middle x (pre rest : str) :
  slice (x :: pre ++ rest) 1 (1 + len pre) = pre.
Proof.
  unfold slice, len. rewrite length_cons, length_app.
  rewrite !clamp_inside by lia.
  replace (Z.to_nat 1) with 1%nat by reflexivity. simpl drop.
  replace (Z.to_nat _) with (length pre) by lia.
  apply take_app_length.
Qed.

Lemma slice_from_1 x (s : str) : slice_from (x :: s) 1 = s.
Proof.
  unfold slice_from, len. rewrite length_cons.
  rewrite clamp_inside by lia. reflexivity.
Qed.

Lemma slice_from_app (s t : str) : slice_from (s ++ t) (len s) = t.
Proof.
  unfold slice_from, len. rewrite length_app.
  rewrite clamp_inside by lia. rewrite Nat2Z.id. apply drop_app_length.
Qed.




End PyStrFacts.
Import PyStrFacts.

(** ** Number formatting *)

Module FmtFacts.

Lemma digit_not_comma c : digit c -> c ≠ comma.
Proof. intros H ->. discriminate H. Qed.

Lemma digit_not_dot c : digit c -> c ≠ dot.
Proof. intros H ->. discriminate H. Qed.

Lemma digit_not_dollar c : digit c -> c ≠ dollar.
Proof. intros H ->. discriminate H. Qed.

Lemma digits_not_elem (c : ascii) (s : str) :
  is_digit c = false -> Forall digit s -> c ∉ s.
Proof.
  intros Hc Hs Hin. rewrite Forall_forall in Hs.
  specialize (Hs c Hin). unfold digit in Hs. congruence.
Qed.

Lemma digit_char_digit d : 0 <= d <= 9 -> digit (digit_char d).
Proof.
  intros H.
  assert (d = 0 \/ d = 1 \/ d = 2 \/ d = 3 \/ d = 4 \/ d = 5 \/ d = 6
          \/ d = 7 \/ d = 8 \/ d = 9) as Hd by lia.
  repeat (destruct Hd as [->|Hd]; [reflexivity|]). subst d. reflexivity.
Qed.

Lemma digit_char_mod n : digit (digit_char (n mod 10)).
Proof. apply digit_char_digit. pose proof (Z.mod_pos_bound n 10). lia. Qed.

(** *** [decimal] *)

Lemma pos_digits_acc fuel n acc :
  pos_digits fuel n acc = pos_digits fuel n [] ++ acc.
Proof.
  revert n acc. induction fuel as [|fuel IH]; intros n acc; [reflexivity|].
  simpl. destruct (n / 10 =? 0); [reflexivity|].
  rewrite (IH _ (_ :: acc)), (IH _ [_]), <- app_assoc. reflexivity.
Qed.

Lemma pos_digits_digits fuel n acc :
  Forall digit acc -> Forall digit (pos_digits fuel n acc).
Proof.
  revert n acc. induction fuel as [|fuel IH]; intros n acc Hacc; [exact Hacc|].
  simpl. destruct (n / 10 =? 0).
  - constructor; [apply digit_char_mod | exact Hacc].
  - apply IH. constructor; [apply digit_char_mod | exact Hacc].
Qed.

Lemma pos_digits_nonempty fuel n acc : pos_digits (S fuel) n acc ≠ [].
Proof.
  simpl. destruct (n / 10 =? 0); [discriminate|].
  rewrite pos_digits_acc. intros H.
  apply app_eq_nil in H as [_ H]. discriminate H.
Qed.

Lemma decimal_digits n : Forall digit (decimal n).
Proof. apply pos_digits_digits. constructor. Qed.

Lemma decimal_nonempty n : decimal n ≠ [].
Proof. apply pos_digits_nonempty. Qed.

Lemma digit_value_char d : 0 <= d <= 9 -> digit_value (digit_char d) = d.
Proof.
  intros H.
  assert (d = 0 \/ d = 1 \/ d = 2 \/ d = 3 \/ d = 4 \/ d = 5 \/ d = 6
          \/ d = 7 \/ d = 8 \/ d = 9) as Hd by lia.
  repeat (destruct Hd as [->|Hd]; [reflexivity|]). subst d. reflexivity.
Qed.

Lemma value_snoc s c : value (s ++ [c]) = 10 * value s + digit_value c.
Proof. unfold value. rewrite fold_left_app. reflexivity. Qed.

(** With enough fuel the digits are those of [n]: nothing is cut off. *)
Lemma pos_digits_value fuel n :
  0 <= n < 2 ^ Z.of_nat fuel ->
  exists s, pos_digits fuel n [] = s /\ value s = n
            /\ (0 < n -> s ≠ []).
Proof.
  revert n. induction fuel as [|fuel IH]; intros n Hn.
  - exists []. simpl in *. repeat split; [|lia].
    unfold value. simpl. lia.
  - eexists. split; [reflexivity|]. simpl pos_digits.
    assert (0 <= n mod 10 <= 9) as Hm
      by (pose proof (Z.mod_pos_bound n 10); lia).
    destruct (Z.eqb_spec (n / 10) 0) as [Hq|Hq].
    + split; [|discriminate].
      unfold value. simpl. rewrite digit_value_char by exact Hm.
      pose proof (Z.div_mod n 10). lia.
    + rewrite pos_digits_acc.
      destruct (IH (n / 10)) as (s & -> & Hv & _).
      { rewrite Nat2Z.inj_succ, Z.pow_succ_r in Hn by lia.
        split; [apply Z.div_pos; lia|].
        apply Z.div_lt_upper_bound; lia. }
      split.
      * rewrite value_snoc, Hv, digit_value_char by exact Hm.
        pose proof (Z.div_mod n 10). lia.
      * intros _ H. apply app_eq_nil in H as [_ H]. discriminate H.
Qed.

Lemma decimal_value n : 0 <= n -> value (decimal n) = n.
Proof.
  intros Hn. unfold decimal.
  destruct (pos_digits_value (S (Z.to_nat (Z.log2 n))) n) as (s & -> & Hv & _);
    [|exact Hv].
  split; [exact Hn|].
  destruct (Z.eq_dec n 0) as [->|Hz]; [reflexivity|].
  rewrite Nat2Z.inj_succ, Z2Nat.id by apply Z.log2_nonneg.
  apply Z.log2_spec. lia.
Qed.

(** *** Rounding *)

Lemma round_half_even_floor (x : Q) :
  round_half_even x =
  match 2 * (Qnum x - Zpos (Qden x) * Qfloor x) ?= Zpos (Qden x) with
  | Lt => Qfloor x
  | Gt => Qfloor x + 1
  | Eq => if Z.even (Qfloor x) then Qfloor x else Qfloor x + 1
  end.
Proof.
  destruct x as [n d]. unfold round_half_even, Qfloor. simpl.
  rewrite Z.mod_eq by lia. reflexivity.
Qed.

(** Rounding sees the number, not the fraction that represents it. *)
Lemma round_half_even_proper (x y : Q) :
  (x == y)%Q -> round_half_even x = round_half_even y.
Proof.
  intros H. rewrite !round_half_even_floor.
  rewrite <- (Qfloor_comp _ _ H).
  unfold Qeq in H. set (f := Qfloor x).
  assert (forall a b c d : Z, 0 < b -> 0 < d -> a * d = c * b ->
            (2 * (a - b * f) ?= b) = (2 * (c - d * f) ?= d)) as Hc.
  { intros a b c d Hb Hd E.
    destruct (Z.compare_spec (2 * (c - d * f)) d) as [E2|E2|E2].
    - apply Z.compare_eq_iff. nia.
    - apply Z.compare_lt_iff. nia.
    - apply Z.compare_gt_iff. nia. }
  rewrite (Hc _ _ (Qnum y) (Zpos (Qden y))) by (try exact H; lia).
  reflexivity.
Qed.

(** The rounded value is a nearest integer. *)
Lemma round_half_even_nearest (x : Q) :
  (Qabs (inject_Z (round_half_even x) - x) <= 1 # 2)%Q.
Proof.
  destruct x as [n d]. unfold round_half_even. simpl Qnum. simpl Qden.
  pose proof (Z.div_mod n (Zpos d) ltac:(lia)) as Hdm.
  pose proof (Z.mod_pos_bound n (Zpos d) ltac:(lia)) as Hm.
  set (fl := n / Zpos d) in *. set (r := n mod Zpos d) in *.
  assert (forall z, 2 * Z.abs (z * Zpos d - n) <= Zpos d ->
            (Qabs (inject_Z z - (n # d)) <= 1 # 2)%Q) as Hq.
  { intros z Hz. unfold Qabs, Qle, Qminus, Qplus, Qopp, inject_Z. simpl. lia. }
  destruct (Z.compare_spec (2 * r) (Zpos d)); [destruct (Z.even fl)| |];
    apply Hq; lia.
Qed.

Lemma hundredths_proper (x y : Q) : (x == y)%Q -> hundredths x = hundredths y.
Proof.
  intros H. unfold hundredths. apply round_half_even_proper.
  rewrite H. reflexivity.
Qed.

Lemma hundredths_nonneg (x : Q) : 0 <= hundredths x.
Proof.
  unfold hundredths, round_half_even.
  assert (0 <= Qnum (Qabs x * 100)) as Hn.
  { destruct x as [n d]. simpl. lia. }
  pose proof (Z.div_pos _ (Zpos (Qden (Qabs x * 100))) Hn ltac:(lia)) as Hfl.
  destruct (_ ?= _); [destruct (Z.even _)| |]; lia.
Qed.

Lemma format_comma_2f_proper (x y : Q) :
  (x == y)%Q -> format_comma_2f x = format_comma_2f y.
Proof.
  intros H. unfold format_comma_2f, sign_str, int_digits, frac_digits.
  rewrite (hundredths_proper _ _ H).
  assert ((x ?= 0)%Q = (y ?= 0)%Q) as -> by (rewrite H; reflexivity).
  reflexivity.
Qed.

Lemma format_plus_2f_proper (x y : Q) :
  (x == y)%Q -> format_plus_2f x = format_plus_2f y.
Proof.
  intros H. unfold format_plus_2f, sign_str, int_digits, frac_digits.
  rewrite (hundredths_proper _ _ H).
  assert ((x ?= 0)%Q = (y ?= 0)%Q) as -> by (rewrite H; reflexivity).
  reflexivity.
Qed.

(** The two printed decimals and the printed integer part are those of the
    rounded magnitude. *)
Lemma format_value (x : Q) :
  100 * value (int_digits x) + value (frac_digits x) = hundredths x.
Proof.
  unfold int_digits, frac_digits.
  pose proof (hundredths_nonneg x) as Hh. set (h := hundredths x) in *.
  rewrite decimal_value by (apply Z.div_pos; lia).
  unfold value. simpl.
  rewrite !digit_value_char
    by (match goal with |- _ <= ?a mod 10 <= _ =>
          pose proof (Z.mod_pos_bound a 10); lia end).
  assert (h / 100 = h / 10 / 10) as ->
    by (rewrite Z.div_div by lia; reflexivity).
  pose proof (Z.div_mod h 10 ltac:(lia)).
  pose proof (Z.div_mod (h / 10) 10 ltac:(lia)).
  lia.
Qed.

Lemma pos_digits_length (k : nat) fuel n acc :
  (1 <= k)%nat -> 0 <= n < 10 ^ Z.of_nat k ->
  (length (pos_digits fuel n acc) <= k + length acc)%nat.
Proof.
  revert k n acc. induction fuel as [|fuel IH]; intros k n acc Hk Hn;
    [simpl; lia|].
  simpl. destruct (Z.eqb_spec (n / 10) 0) as [Hq|Hq]; [simpl; lia|].
  destruct k as [|[|k]]; [lia| |].
  - exfalso. apply Hq. apply Z.div_small. simpl in Hn. lia.
  - specialize (IH (S k) (n / 10) (digit_char (n mod 10) :: acc)).
    simpl length in IH. etransitivity; [apply IH|]; [lia| |lia].
    rewrite (Nat2Z.inj_succ (S k)), Z.pow_succ_r in Hn by lia.
    split; [apply Z.div_pos; lia|].
    apply Z.div_lt_upper_bound; lia.
Qed.

Lemma decimal_length (k : nat) n :
  (1 <= k)%nat -> 0 <= n < 10 ^ Z.of_nat k -> (length (decimal n) <= k)%nat.
Proof.
  intros Hk Hn. pose proof (pos_digits_length k (S (Z.to_nat (Z.log2 n))) n []
                              Hk Hn) as H.
  unfold decimal. rewrite Nat.add_0_r in H. exact H.
Qed.

End FmtFacts.
Import FmtFacts.

(** ** Thousands separators and the shape of a formatted number *)

Module GroupFacts.

Lemma group_rev_step a b c d (r : str) :
  group_rev (a :: b :: c :: d :: r)
  = a :: b :: c :: comma :: group_rev (d :: r).
Proof. reflexivity. Qed.

(** Induction three characters at a time, as [group_rev] recurses. *)
Lemma group_rev_ind (P : str -> Prop) :
  P [] -> (forall a, P [a]) -> (forall a b, P [a; b]) ->
  (forall a b c, P [a; b; c]) ->
  (forall a b c d r, P (d :: r) -> P (a :: b :: c :: d :: r)) ->
  forall r, P r.
Proof.
  intros H0 H1 H2 H3 Hstep r.
  assert (forall n (s : str), (length s <= n)%nat -> P s) as Hall.
  { induction n as [|n IH]; intros s Hs.
    - destruct s; [exact H0 | simpl in Hs; lia].
    - destruct s as [|a [|b [|c [|d s]]]]; auto.
      apply Hstep, IH. simpl in *. lia. }
  apply (Hall (length r)). lia.
Qed.


Lemma group_rev_Forall (P : ascii -> Prop) (r : str) :
  P comma -> Forall P r -> Forall P (group_rev r).
Proof.
  intros Hc.
  induction r as [| | | |a b c d r IH] using group_rev_ind;
    try (intros H; exact H).
  intros H. rewrite group_rev_step.
  apply Forall_cons in H as [Ha H]. apply Forall_cons in H as [Hb H].
  apply Forall_cons in H as [Hc' H].
  repeat (apply Forall_cons; split; [assumption|]). apply IH, H.
Qed.

Lemma group_rev_snoc (r : str) x :
  exists r', group_rev (r ++ [x]) = r' ++ [x].
Proof.
  induction r as [| | | |a b c d r IH] using group_rev_ind.
  - exists []. reflexivity.
  - exists [a]. reflexivity.
  - exists [a; b]. reflexivity.
  - exists [a; b; c; comma]. reflexivity.
  - destruct IH as [r' Hr']. exists (a :: b :: c :: comma :: r').
    change ((a :: b :: c :: d :: r) ++ [x])
      with (a :: b :: c :: d :: (r ++ [x])).
    rewrite group_rev_step.
    change (d :: (r ++ [x])) with ((d :: r) ++ [x]).
    rewrite Hr'. reflexivity.
Qed.

Lemma group_thousands_head x (s : str) :
  exists g, group_thousands (x :: s) = x :: g.
Proof.
  unfold group_thousands. simpl rev.
  destruct (group_rev_snoc (rev s) x) as [r' ->].
  exists (rev r'). apply rev_unit.
Qed.


Lemma group_thousands_Forall (P : ascii -> Prop) (s : str) :
  P comma -> Forall P s -> Forall P (group_thousands s).
Proof.
  intros Hc Hs. unfold group_thousands.
  apply Forall_forall. intros c Hin.
  apply list_elem_of_In, in_rev, list_elem_of_In in Hin.
  revert c Hin. apply Forall_forall, group_rev_Forall; [exact Hc|].
  apply Forall_forall. intros c Hin.
  apply list_elem_of_In, in_rev, list_elem_of_In in Hin.
  revert c Hin. apply Forall_forall, Hs.
Qed.

(** Up to three digits get no separator. *)
Lemma group_thousands_short (s : str) :
  (length s <= 3)%nat -> group_thousands s = s.
Proof.
  intros H. unfold group_thousands.
  assert (group_rev (rev s) = rev s) as ->.
  { pose proof (length_rev s) as Hl.
    destruct (rev s) as [|a [|b [|c [|d r]]]]; try reflexivity.
    simpl in Hl. lia. }
  apply rev_involutive.
Qed.

End GroupFacts.
Import GroupFacts.

(** ** The formatted price and its partition over the tiles *)

Module SplitFacts.




Lemma sign_str_cases plus (x : Q) :
  sign_str plus x = lit "-"
  \/ sign_str plus x = (if plus then lit "+" else []).
Proof. unfold sign_str. destruct (x ?= 0)%Q; auto. Qed.

Lemma frac_digits_digits (x : Q) : Forall digit (frac_digits x).
Proof. repeat constructor; apply digit_char_mod. Qed.

Lemma int_digits_digits (x : Q) : Forall digit (int_digits x).
Proof. apply decimal_digits. Qed.

Lemma format_comma_2f_parts (x : Q) :
  format_comma_2f x = integer_part_of x ++ dot :: frac_digits x.
Proof. unfold format_comma_2f, integer_part_of. apply app_assoc. Qed.

(** The integer part is made of digits and separators behind an optional
    minus sign. *)
Lemma integer_part_chars (x : Q) :
  Forall (fun c => digit c \/ c = comma \/ c = "-"%char) (integer_part_of x).
Proof.
  unfold integer_part_of. apply Forall_app. split.
  - destruct (sign_str_cases false x) as [-> | ->];
      [|apply List.Forall_nil].
    apply List.Forall_cons; [auto | apply List.Forall_nil].
  - apply group_thousands_Forall; [auto|].
    eapply Forall_impl; [apply int_digits_digits|]. auto.
Qed.

Lemma integer_part_no_dot (x : Q) : dot ∉ integer_part_of x.
Proof.
  intros Hin. pose proof (integer_part_chars x) as H.
  rewrite Forall_forall in H.
  destruct (H _ Hin) as [Hd | [Hd | Hd]]; discriminate Hd.
Qed.

Lemma split_formatted (x : Q) :
  split dot (format_comma_2f x) = [integer_part_of x; frac_digits x].
Proof.
  rewrite format_comma_2f_parts. apply split_once.
  - apply integer_part_no_dot.
  - apply digits_not_elem; [reflexivity | apply frac_digits_digits].
Qed.

Lemma integer_part_head (x : Q) :
  exists h tl, integer_part_of x = h :: tl /\ h ≠ comma.
Proof.
  unfold integer_part_of.
  destruct (sign_str_cases false x) as [-> | ->].
  - eexists _, _. split; [reflexivity | discriminate].
  - pose proof (int_digits_digits x) as Hd.
    destruct (int_digits x) as [|d ds] eqn:E;
      [exfalso; exact (decimal_nonempty _ E)|].
    destruct (group_thousands_head d ds) as [g ->].
    exists d, g. split; [reflexivity|].
    apply Forall_cons in Hd as [Hd _]. apply digit_not_comma, Hd.
Qed.


(** The slicing of source lines 78-85, for any integer part that does not
    start with a separator. *)
Lemma integer_split (x : ascii) (tl : str) :
  x ≠ comma ->
  let ip := x :: tl in
  let t2 := if negb (find comma ip =? -1)
            then slice ip 1 (find comma ip + 1)
            else slice_from ip 1 ++ lit "," in
  let t3 := slice_from (remove_char comma ip)
              (1 + len (remove_char comma t2)) in
  exists pre,
    t2 = pre ++ [comma] /\ (comma ∉ pre)
    /\ remove_char comma ip = x :: pre ++ t3
    /\ (((comma ∉ ip) /\ tl = pre /\ t3 = [])
        \/ (exists post, tl = pre ++ comma :: post
                         /\ t3 = remove_char comma post)).
Proof.
  intros Hx ip t2 t3.
  assert (remove_char comma ip = x :: remove_char comma tl) as Hrm.
  { subst ip. simpl. rewrite (eqb_comma_false _ Hx). reflexivity. }
  assert (find comma ip
          = if find comma tl =? -1 then -1 else 1 + find comma tl) as Hfind.
  { subst ip. simpl. rewrite (eqb_comma_false _ Hx). reflexivity. }
  destruct (find_cases comma tl) as [[Habs Hf] | (pre & post & Htl & Hpre & Hf)].
  - exists tl.
    assert (t2 = tl ++ [comma]) as Ht2.
    { subst t2. rewrite Hfind, Hf. simpl negb. cbv iota.
      subst ip. rewrite slice_from_1. reflexivity. }
    assert (t3 = []) as Ht3.
    { subst t3. rewrite Ht2, Hrm, remove_char_app.
      rewrite (remove_char_absent _ _ Habs). simpl (remove_char comma [comma]).
      rewrite app_nil_r.
      replace (1 + len tl) with (len (x :: tl))
        by (unfold len; rewrite length_cons; lia).
      rewrite <- (app_nil_r (x :: tl)) at 1. apply slice_from_app. }
    split; [exact Ht2|]. split; [exact Habs|]. split.
    + rewrite Ht3, app_nil_r, Hrm, (remove_char_absent _ _ Habs). reflexivity.
    + left. split; [|split; [reflexivity | exact Ht3]].
      subst ip. apply not_elem_of_cons. split; [congruence | exact Habs].
  - exists pre.
    assert (0 <= len pre) as Hlen by (unfold len; lia).
    assert (t2 = pre ++ [comma]) as Ht2.
    { subst t2. rewrite Hfind, Hf.
      destruct (Z.eqb_spec (len pre) (-1)) as [E|_]; [lia|].
      destruct (Z.eqb_spec (1 + len pre) (-1)) as [E|_]; [lia|].
      simpl negb. cbv iota. subst ip. rewrite Htl.
      replace (1 + len pre + 1) with (1 + len (pre ++ [comma]))
        by (unfold len; rewrite length_app; simpl; lia).
      replace (pre ++ comma :: post) with ((pre ++ [comma]) ++ post)
        by (rewrite <- app_assoc; reflexivity).
      apply slice_middle. }
    assert (remove_char comma tl = pre ++ remove_char comma post) as Hrtl.
    { rewrite Htl, remove_char_app, (remove_char_absent _ _ Hpre).
      reflexivity. }
    assert (t3 = remove_char comma post) as Ht3.
    { subst t3. rewrite Ht2, Hrm, Hrtl, remove_char_app.
      rewrite (remove_char_absent _ _ Hpre). simpl (remove_char comma [comma]).
      rewrite app_nil_r.
      replace (1 + len pre) with (len (x :: pre))
        by (unfold len; rewrite length_cons; lia).
      apply (slice_from_app (x :: pre)). }
    split; [exact Ht2|]. split; [exact Hpre|]. split.
    + rewrite Hrm, Hrtl, Ht3. reflexivity.
    + right. exists post. split; [exact Htl | exact Ht3].
Qed.

(** What [tile_texts] returns for a finite float price, whatever the
    percent change: the tiles partition the integer part at the first
    separator, and only the formatting of the percent change can raise. *)
Lemma tile_texts_finite (price : Q) (trend : Z) (percent_change : pynum) :
  exists x pre t3 tl,
    tile_texts price trend percent_change
    = rbind (num_plus_2f percent_change) (fun percent_str =>
        Ok [ [dollar; x]; pre ++ [comma]; t3; dot :: frac_digits price;
             percent_str ++ lit "%"; arrow_of trend ])
    /\ integer_part_of price = x :: tl
    /\ x ≠ comma /\ (comma ∉ pre) /\ (comma ∉ t3)
    /\ remove_char comma (integer_part_of price) = x :: pre ++ t3
    /\ (((comma ∉ integer_part_of price) /\ tl = pre /\ t3 = [])
        \/ (exists post, tl = pre ++ comma :: post
                         /\ t3 = remove_char comma post)).
Proof.
  destruct (integer_part_head price) as (x & tl & Hip & Hx).
  destruct (integer_split x tl Hx) as (pre & Ht2 & Hpre & Hrm & Hcases).
  cbv zeta in Ht2, Hrm, Hcases.
  set (t3 := slice_from (remove_char comma (x :: tl))
               (1 + len (remove_char comma
                  (if negb (find comma (x :: tl) =? -1)
                   then slice (x :: tl) 1 (find comma (x :: tl) + 1)
                   else slice_from (x :: tl) 1 ++ lit ",")))) in *.
  exists x, pre, t3, tl.
  assert (comma ∉ t3) as Ht3.
  { destruct Hcases as [(_ & _ & ->) | (post & _ & ->)];
      [apply not_elem_of_nil | apply remove_char_not_elem]. }
  split; [|rewrite Hip; auto 10].
  unfold tile_texts.
  change (num_comma_2f price) with (Ok (format_comma_2f price)).
  unfold rbind at 1. cbv beta iota.
  rewrite split_formatted. simpl unpack2. cbv beta iota.
  unfold rbind at 1. cbv beta iota. rewrite Hip.
  assert (remove_char comma (x :: tl) = x :: remove_char comma tl) as Hr.
  { simpl. rewrite (eqb_comma_false _ Hx). reflexivity. }
  rewrite Hr at 1. simpl first_char. unfold rbind at 1. cbv beta iota zeta.
  fold t3. rewrite Ht2. reflexivity.
Qed.

(** The same for a percent change that is a finite float too. *)
Lemma tile_texts_shape (price : Q) (trend : Z) (percent_change : Q) :
  exists x pre t3 tl,
    tile_texts price trend percent_change
    = Ok [ [dollar; x]; pre ++ [comma]; t3; dot :: frac_digits price;
           format_plus_2f percent_change ++ lit "%"; arrow_of trend ]
    /\ integer_part_of price = x :: tl
    /\ x ≠ comma /\ (comma ∉ pre) /\ (comma ∉ t3)
    /\ remove_char comma (integer_part_of price) = x :: pre ++ t3
    /\ (((comma ∉ integer_part_of price) /\ tl = pre /\ t3 = [])
        \/ (exists post, tl = pre ++ comma :: post
                         /\ t3 = remove_char comma post)).
Proof.
  destruct (tile_texts_finite price trend percent_change)
    as (x & pre & t3 & tl & Heq & Hrest).
  exists x, pre, t3, tl. split; [exact Heq | exact Hrest].
Qed.

(** Below 1,000 the integer part has no separator. *)
Lemma no_separator_below_1000 (x : Q) :
  hundredths x < 100000 -> comma ∉ integer_part_of x.
Proof.
  intros Hx. unfold integer_part_of.
  rewrite group_thousands_short.
  - apply not_elem_of_app. split.
    + destruct (sign_str_cases false x) as [-> | ->];
        [|apply not_elem_of_nil].
      apply not_elem_of_cons. split; [discriminate | apply not_elem_of_nil].
    + apply digits_not_elem; [reflexivity | apply int_digits_digits].
  - apply decimal_length; [lia|].
    pose proof (hundredths_nonneg x).
    split; [apply Z.div_pos; lia|].
    apply Z.div_lt_upper_bound; simpl; lia.
Qed.

End SplitFacts.
Import SplitFacts.

(** ** The tile texts *)

Module TileTexts.





End TileTexts.
Import TileTexts.

(** ** Numbers that are not finite floats *)

Module NumFacts.

Lemma to_float_raises (n : pynum) e :
  to_float n = Raise e -> e = OverflowError.
Proof.
  destruct n as [f|z]; unfold to_float; [discriminate|].
  unfold float_of_int. destruct (Z.abs z <? 2 ^ 53); [discriminate|].
  cbv zeta. destruct (_ <? 2 ^ 1024); [discriminate|]. congruence.
Qed.

Lemma tile_texts_to_float (price : pynum) trend (percent_change : pynum) fp :
  to_float price = Ok fp ->
  tile_texts price trend percent_change
  = tile_texts (PFloat fp) trend percent_change.
Proof. intros H. unfold tile_texts, num_comma_2f. rewrite H. reflexivity. Qed.

Lemma tile_texts_price_raises (price : pynum) trend (percent_change : pynum)
    e :
  to_float price = Raise e ->
  tile_texts price trend percent_change = Raise e.
Proof. intros H. unfold tile_texts, num_comma_2f. rewrite H. reflexivity. Qed.

(** [-0.0] prints as ["-0.00"]: the sign takes tile 1. *)
Lemma tile_texts_negzero trend (percent_change : pynum) :
  tile_texts (PFloat NegZero) trend percent_change
  = rbind (num_plus_2f percent_change) (fun percent_str =>
      Ok [ lit "$-"; lit "0,"; []; lit ".00"; percent_str ++ lit "%";
           arrow_of trend ]).
Proof. reflexivity. Qed.

(** ["inf"], ["-inf"] and ["nan"] hold no point: the unpacking of source
    line 74 raises. *)
Lemma tile_texts_not_finite fp trend (percent_change : pynum) :
  is_finite fp = false ->
  tile_texts (PFloat fp) trend percent_change = Raise ValueError.
Proof. destruct fp; try discriminate; reflexivity. Qed.

(** For a price that prints as a finite float, only the formatting of the
    percent change can raise. *)
Lemma tile_texts_number (price : pynum) trend (percent_change : pynum) fp :
  to_float price = Ok fp -> is_finite fp = true ->
  exists t1 t2 t3 t4,
    tile_texts price trend percent_change
    = rbind (num_plus_2f percent_change) (fun percent_str =>
        Ok [t1; t2; t3; t4; percent_str ++ lit "%"; arrow_of trend]).
Proof.
  intros Hp Hfin. rewrite (tile_texts_to_float _ _ _ _ Hp).
  destruct fp as [q| | | |]; try discriminate Hfin.
  - destruct (tile_texts_finite q trend percent_change)
      as (x & pre & t3 & tl & Heq & _).
    eexists _, _, _, _. exact Heq.
  - eexists _, _, _, _. apply tile_texts_negzero.
Qed.

(** A finite float under [+.2f]: sign, integer digits, point, two
    digits. *)
Lemma float_plus_2f_finite (f : pyfloat) :
  is_finite f = true ->
  exists ints d1 d2,
    float_plus_2f f
    = match f with
      | Finite q => if Qltb q 0 then "-"%char else "+"%char
      | NegZero => "-"%char
      | _ => "+"%char
      end :: ints ++ [dot; d1; d2]
    /\ ints ≠ [] /\ Forall digit ints /\ digit d1 /\ digit d2.
Proof.
  intros Hfin. destruct f as [q| | | |]; try discriminate Hfin.
  - pose proof (frac_digits_digits q) as Hfrac.
    unfold frac_digits in Hfrac.
    apply Forall_cons in Hfrac as [Hd1 Hfrac].
    apply Forall_cons in Hfrac as [Hd2 _].
    eexists (int_digits q), _, _. split.
    + unfold float_plus_2f, format_plus_2f, sign_str, frac_digits, Qltb.
      destruct (q ?= 0)%Q; simpl app; reflexivity.
    + split; [apply decimal_nonempty|].
      split; [apply int_digits_digits|]. split; assumption.
  - exists (lit "0"), "0"%char, "0"%char. split; [reflexivity|].
    split; [discriminate|].
    split; [repeat constructor|]. split; reflexivity.
Qed.

End NumFacts.
Import NumFacts.

(** The conversion of an int on samples: exact below 2^53, ties to the even
    significand above, the largest float, and the first int beyond it. *)
Example float_of_int_samples :
  map float_of_int
    [12345; 2 ^ 53 + 1; 2 ^ 60 + 2 ^ 7; - (2 ^ 53 + 3);
     2 ^ 1024 - 2 ^ 970 - 1; 2 ^ 1024 - 2 ^ 970]
  = [Ok (Finite (inject_Z 12345)); Ok (Finite (inject_Z (2 ^ 53)));
     Ok (Finite (inject_Z (2 ^ 60))); Ok (Finite (inject_Z (- (2 ^ 53 + 4))));
     Ok (Finite (inject_Z (2 ^ 1024 - 2 ^ 971))); Raise OverflowError].
Proof. vm_compute. reflexivity. Qed.

(** The price line of an int beyond 2^53, of a [bool] read as an int, of
    [-0.0], of the infinities and of NaN. *)
Example price_text_of_numbers :
  map num_comma_2f
    [PInt (2 ^ 53 + 1); PInt 1; PFloat NegZero; PFloat PosInf; PFloat NegInf;
     PFloat NaN; PInt (10 ^ 400)]
  = [Ok (lit "9,007,199,254,740,992.00"); Ok (lit "1.00"); Ok (lit "-0.00");
     Ok (lit "inf"); Ok (lit "-inf"); Ok (lit "nan"); Raise OverflowError].
Proof. vm_compute. reflexivity. Qed.

(** The tiles of a price that is an int, and of [-0.0]. *)
Example tiles_of_int_price :
  tile_texts (PInt 98765) (-1) (PInt (-2))
  = Ok (strs ["$9"; "8,"; "765"; ".00"; "-2.00%"; "▼"]).
Proof. vm_compute. reflexivity. Qed.

Example tiles_of_negative_zero :
  tile_texts (PFloat NegZero) 0 (PFloat NegZero)
  = Ok (strs ["$-"; "0,"; ""; ".00"; "-0.00%"; "-"]).
Proof. vm_compute. reflexivity. Qed.

(** Prices that cannot be split: the infinities and NaN print without a
    point, an int beyond the float range does not print. *)
Example tiles_of_unprintable_prices :
  map (fun price => tile_texts price 0 (PInt 0))
    [PFloat PosInf; PFloat NegInf; PFloat NaN; PInt (10 ^ 400)]
  = [Raise ValueError; Raise ValueError; Raise ValueError;
     Raise OverflowError].
Proof. vm_compute. reflexivity. Qed.

(** The trend of numbers that are not finite floats: NaN compares false
    with zero both ways. *)
Example trend_of_numbers :
  map trend_of_change
    [PInt 3; PInt (-3); PInt 0; PFloat NegZero; PFloat PosInf; PFloat NegInf;
     PFloat NaN]
  = [1; -1; 0; 0; 1; -1; 0].
Proof. vm_compute. reflexivity. Qed.



(** *** The price 1234.56 *)

(** C2, as the specification states it, fails: for the price 1234.56 with
    trend Up the first four tile texts are not ["$1"], ["2,"], ["34"],
    [".56"]. *)
Lemma tiles_1234_56_not_as_specified :
  exists texts,
    tile_texts (123456 # 100) 1 (123 # 100) = Ok texts
    /\ take 4 texts ≠ strs ["$1"; "2,"; "34"; ".56"].
Proof.
  eexists. split; [vm_compute; reflexivity|].
  vm_compute. discriminate.
Qed.

(** C2, amended. For the price 1234.56 with trend Up the tile texts are
    ["$1"], [","], ["234"], [".56"], the signed percent string and the
    up-arrow glyph: the first separator directly follows the leading digit,
    so tile 2 holds the separator alone and tile 3 the three digits after
    it. *)
Theorem tiles_1234_56 (percent_change : Q) :
  tile_texts (123456 # 100) 1 percent_change
  = Ok (strs ["$1"; ","; "234"; ".56"]
        ++ [format_plus_2f percent_change ++ lit "%"; lit "▲"]).
Proof.
  unfold tile_texts.
  change (num_plus_2f percent_change) with (Ok (format_plus_2f percent_change)).
  generalize (format_plus_2f percent_change). intros pct.
  vm_compute. reflexivity.
Qed.

(** The same tiles for the floating-point value of [1234.56]. *)
Example tiles_double_1234_56 :
  tile_texts double_1234_56 1 (123 # 100)
  = Ok (strs ["$1"; ","; "234"; ".56"; "+1.23%"; "▲"]).
Proof. vm_compute. reflexivity. Qed.

(** *** Tile 5 *)

(** C7, as the specification states it, fails: a percent change that is
    not a number (NaN, which the JSON parser of the fetcher accepts and the
    fetcher passes on with trend 0) gives tile 5 the text ["+nan%"], which
    has no decimal point and no digits. *)
Lemma tile5_not_a_number :
  exists t1 t2 t3 t4 t5 t6,
    tile_texts (123456 # 100) (trend_of_change (PFloat NaN)) (PFloat NaN)
    = Ok [t1; t2; t3; t4; t5; t6]
    /\ t5 = lit "+nan%"
    /\ (dot ∉ t5)
    /\ ~ exists sign ints d1 d2,
          t5 = sign :: ints ++ dot :: d1 :: d2 :: lit "%".
Proof.
  eexists _, _, _, _, _, _. split; [vm_compute; reflexivity|].
  split; [reflexivity|].
  assert (dot ∉ ["+"; "n"; "a"; "n"; "%"]%char) as Hdot.
  { unfold dot. rewrite !not_elem_of_cons.
    repeat (split; [discriminate|]). apply not_elem_of_nil. }
  split; [exact Hdot|].
  intros (sign & ints & d1 & d2 & E). apply Hdot. rewrite E.
  apply elem_of_cons. right. apply elem_of_app. right.
  apply elem_of_cons. left. reflexivity.
Qed.

(** C7, amended. For every percent change that prints as a finite float (a
    finite float, [-0.0] included, or an int within the float range), the
    text of tile 5 is an explicit sign (['-'] below zero and for [-0.0],
    ['+'] otherwise, zero included), at least one integer digit, the
    decimal point, exactly two digits, and ['%'] at the end.  For an
    infinity or NaN the text is ["+inf%"], ["-inf%"] or ["+nan%"]: signed
    and ending in ['%'], without digits. *)
Theorem tile5_signed_two_decimals
    (price : pynum) (trend : Z) (percent_change : pynum) (fp f : pyfloat) :
  to_float price = Ok fp -> is_finite fp = true ->
  to_float percent_change = Ok f ->
  exists t1 t2 t3 t4 t5 t6,
    tile_texts price trend percent_change = Ok [t1; t2; t3; t4; t5; t6]
    /\ (is_finite f = true ->
        exists sign ints d1 d2,
          t5 = sign :: ints ++ dot :: d1 :: d2 :: lit "%"
          /\ sign = match f with
                    | Finite q => if Qltb q 0 then "-"%char else "+"%char
                    | NegZero => "-"%char
                    | _ => "+"%char
                    end
          /\ ints ≠ [] /\ Forall digit ints /\ digit d1 /\ digit d2)
    /\ (is_finite f = false ->
        t5 = match f with
             | NegInf => lit "-inf%"
             | PosInf => lit "+inf%"
             | _ => lit "+nan%"
             end).
Proof.
  intros Hp Hfin Hc.
  destruct (tile_texts_number price trend percent_change fp Hp Hfin)
    as (t1 & t2 & t3 & t4 & Heq).
  unfold num_plus_2f in Heq. rewrite Hc in Heq. simpl rbind in Heq.
  eexists _, _, _, _, _, _. split; [exact Heq|]. split.
  - intros Hf.
    destruct (float_plus_2f_finite f Hf)
      as (ints & d1 & d2 & Hfmt & Hne & Hints & Hd1 & Hd2).
    eexists _, ints, d1, d2. split; [|split; [reflexivity|auto]].
    rewrite Hfmt. simpl. rewrite <- app_assoc. reflexivity.
  - intros Hf. destruct f; try discriminate Hf; reflexivity.
Qed.

(** The theorem at a price of 1234.56 and a percent change of [-0.0]. *)
Lemma tile5_signed_two_decimals_witness :
  exists t1 t2 t3 t4 t5 t6,
    tile_texts (123456 # 100) 0 (PFloat NegZero)
    = Ok [t1; t2; t3; t4; t5; t6]
    /\ (is_finite NegZero = true ->
        exists sign ints d1 d2,
          t5 = sign :: ints ++ dot :: d1 :: d2 :: lit "%"
          /\ sign = "-"%char
          /\ ints ≠ [] /\ Forall digit ints /\ digit d1 /\ digit d2)
    /\ (is_finite NegZero = false -> t5 = lit "+nan%").
Proof.
  apply (tile5_signed_two_decimals (123456 # 100)%Q 0 (PFloat NegZero)
           (Finite (123456 # 100)) NegZero); reflexivity.
Defined.

Example tile5_examples :
  map (fun p => format_plus_2f p ++ lit "%")
    [123 # 100; - (1 # 2); 0; - (1 # 1000); 2675 # 1000]%Q
  = strs ["+1.23%"; "-0.50%"; "+0.00%"; "-0.00%"; "+2.68%"].
Proof. vm_compute. reflexivity. Qed.

(** Tile 5 for percent changes that are not finite floats: an int, [-0.0],
    the infinities and NaN. *)
Example tile5_of_numbers :
  map (fun c => rbind (num_plus_2f c) (fun t => Ok (t ++ lit "%")))
    [PInt 3; PInt (-2); PFloat NegZero; PFloat PosInf; PFloat NegInf;
     PFloat NaN; PInt (10 ^ 400)]
  = [Ok (lit "+3.00%"); Ok (lit "-2.00%"); Ok (lit "-0.00%");
     Ok (lit "+inf%"); Ok (lit "-inf%"); Ok (lit "+nan%");
     Raise OverflowError].
Proof. vm_compute. reflexivity. Qed.

(** *** Prices without a thousands separator *)



(** *** Where the separators go *)


Example separators_1234567_89 :
  tile_texts (123456789 # 100) 0 0
  = Ok (strs ["$1"; ","; "234567"; ".89"; "+0.00%"; "-"]).
Proof. vm_compute. reflexivity. Qed.

(** ** The quote fetcher *)


Lemma parse_quote_some (data price change_24h : pyval) (trend : Z) :
  parse_quote data = Ok (Some (price, trend, change_24h)) ->
  is_none price = false
  /\ has_field data "usd" /\ has_field data "usd_24h_change"
  /\ exists change,
       as_number change_24h = Ok change /\ trend = trend_of_change change.
Proof.
  unfold parse_quote, py_get, has_field.
  destruct data as [| | | | |m]; try discriminate. simpl rbind.
  destruct (m !! "bitcoin") as [btc|] eqn:Hbtc; simpl rbind.
  - destruct btc as [| | | | |b]; try discriminate. simpl rbind.
    destruct (b !! "usd") as [p|] eqn:Hp;
      destruct (b !! "usd_24h_change") as [c|] eqn:Hc; simpl rbind;
      try (rewrite ?orb_true_r; discriminate).
    destruct (is_none p) eqn:Hnp; [discriminate|].
    destruct (is_none c) eqn:Hnc; [discriminate|]. simpl orb. cbv iota.
    destruct (as_number c) as [q|e] eqn:Hq; [|discriminate]. simpl rbind.
    intros [= <- <- <-]. split; [exact Hnp|].
    split; [|split].
    + exists m, b, p. repeat split; auto. intros ->. discriminate Hnp.
    + exists m, b, c. repeat split; auto. intros ->. discriminate Hnc.
    + exists q. auto.
  - rewrite !lookup_empty. simpl. discriminate.
Qed.

Section Fetcher.

Context {native : Type}.
Implicit Types w : @world native.

Lemma fetch_body_no_answer w :
  http w (requests w) = ConnectionFailed ->
  fetch_body w = (Raise RequestException, requested w).
Proof.
  intros H. unfold fetch_body, bind, requests_get. rewrite H. reflexivity.
Qed.

Lemma fetch_body_rate_limited w r :
  http w (requests w) = Responded r -> status_code r = 429 ->
  fetch_body w
  = (Ok unavailable,
     emit (EvSleep 60) (emit (EvPrint MsgRateLimit) (requested w))).
Proof.
  intros H Hs. unfold fetch_body, bind, requests_get. rewrite H, Hs.
  reflexivity.
Qed.

Lemma fetch_body_malformed w r :
  http w (requests w) = Responded r -> status_code r ≠ 429 ->
  body r = None ->
  fetch_body w = (Raise JSONDecodeError, requested w).
Proof.
  intros H Hs Hb. unfold fetch_body, bind, requests_get. rewrite H.
  destruct (Z.eqb_spec (status_code r) 429) as [E|_]; [contradiction|].
  unfold lift, response_json. rewrite Hb. reflexivity.
Qed.

Lemma fetch_body_decoded w r data :
  http w (requests w) = Responded r -> status_code r ≠ 429 ->
  body r = Some data ->
  fetch_body w
  = match parse_quote data with
    | Ok (Some quote) => (Ok quote, requested w)
    | Ok None =>
        (Ok unavailable,
         emit (EvPrint (MsgUnexpectedResponse data)) (requested w))
    | Raise e => (Raise e, requested w)
    end.
Proof.
  intros H Hs Hb. unfold fetch_body, bind, requests_get. rewrite H.
  destruct (Z.eqb_spec (status_code r) 429) as [E|_]; [contradiction|].
  unfold lift, response_json, parse_quote. rewrite Hb.
  destruct (py_get data "bitcoin" (PyDict ∅)) as [btc|e]; [|reflexivity].
  simpl rbind. destruct (py_get btc "usd" PyNone) as [p|e]; [|reflexivity].
  simpl rbind.
  destruct (py_get btc "usd_24h_change" PyNone) as [c|e]; [|reflexivity].
  simpl rbind. destruct (is_none p || is_none c); [reflexivity|].
  destruct (as_number c) as [q|e]; reflexivity.
Qed.

(** Whatever the [try] block does, the function returns. *)
Lemma fetch_returns w :
  exists quote w', fetch_price_and_trend w = (Ok quote, w').
Proof.
  unfold fetch_price_and_trend, try_except.
  destruct (fetch_body w) as [[quote|e] w']; eauto.
Qed.

Lemma fetch_handles w e w' :
  fetch_body w = (Raise e, w') ->
  fetch_price_and_trend w
  = (Ok unavailable, emit (EvPrint (MsgFetchError e)) w').
Proof.
  intros H. unfold fetch_price_and_trend, try_except. rewrite H. reflexivity.
Qed.

Lemma fetch_passes w quote w' :
  fetch_body w = (Ok quote, w') ->
  fetch_price_and_trend w = (Ok quote, w').
Proof.
  intros H. unfold fetch_price_and_trend, try_except. rewrite H. reflexivity.
Qed.

Lemma parse_quote_missing data name :
  name ∈ ["usd"; "usd_24h_change"]%string -> ~ has_field data name ->
  parse_quote data = Ok None \/ exists e, parse_quote data = Raise e.
Proof.
  intros Hname Hmiss.
  destruct (parse_quote data) as [[[[p t] c]|]|e] eqn:E; eauto.
  exfalso. apply Hmiss.
  apply parse_quote_some in E as (_ & Hp & Hc & _).
  rewrite !elem_of_cons, elem_of_nil in Hname.
  destruct Hname as [-> | [-> | []]]; assumption.
Qed.

(** The device is not touched and the request counter advances by one. *)
Local Ltac trace_suffix H :=
  eapply H; cycle 1;
  [ simpl; rewrite <- ?app_assoc; reflexivity
  | simpl; repeat constructor; discriminate ].

Lemma fetch_keys w quote w' :
  fetch_price_and_trend w = (quote, w') ->
  keys w' = keys w /\ requests w' = S (requests w)
  /\ exists evs, trace w' = trace w ++ EvGet API_URL :: evs
                 /\ Forall (fun e => forall k img, e ≠ EvSetKeyImage k img) evs.
Proof.
  intros H.
  assert (forall evs, Forall (fun e => forall k img,
                                e ≠ @EvSetKeyImage native k img) evs ->
          trace w' = trace (requested w) ++ evs ->
          exists evs0, trace w' = trace w ++ EvGet API_URL :: evs0
            /\ Forall (fun e => forall k img, e ≠ EvSetKeyImage k img) evs0)
    as Hev.
  { intros evs Hevs ->. exists evs. simpl. rewrite <- app_assoc. auto. }
  destruct (http w (requests w)) as [|r] eqn:Hhttp.
  - rewrite (fetch_handles _ _ _ (fetch_body_no_answer _ Hhttp)) in H.
    injection H as <- <-. repeat split.
    trace_suffix Hev.
  - destruct (Z.eq_dec (status_code r) 429) as [Hs|Hs].
    + rewrite (fetch_passes _ _ _ (fetch_body_rate_limited _ _ Hhttp Hs)) in H.
      injection H as <- <-. repeat split.
      trace_suffix Hev.
    + destruct (body r) as [data|] eqn:Hb.
      * pose proof (fetch_body_decoded _ _ _ Hhttp Hs Hb) as Hbody.
        destruct (parse_quote data) as [[q|]|e].
        -- rewrite (fetch_passes _ _ _ Hbody) in H. injection H as <- <-.
           repeat split. apply (Hev []); [constructor|].
           rewrite app_nil_r. reflexivity.
        -- rewrite (fetch_passes _ _ _ Hbody) in H. injection H as <- <-.
           repeat split. trace_suffix Hev.
        -- rewrite (fetch_handles _ _ _ Hbody) in H. injection H as <- <-.
           repeat split. trace_suffix Hev.
      * rewrite (fetch_handles _ _ _ (fetch_body_malformed _ _ Hhttp Hs Hb)) in H.
        injection H as <- <-. repeat split.
        trace_suffix Hev.
Qed.

End Fetcher.


(** C4. [fetch_price_and_trend] always returns and never raises.  In every
    failure mode (no answer, HTTP 429, a body that is not JSON, a missing
    price or change field, any exception raised in the [try] block) it
    returns the "unavailable" result [(None, 0, 0)].  On HTTP 429 it does
    so after printing the rate-limit message and one [time.sleep(60)], and
    nothing else. *)
Theorem fetch_never_raises (native : Type) (w : @world native) :
  (exists quote w', fetch_price_and_trend w = (Ok quote, w'))
  /\ (failure_mode w ->
      exists w', fetch_price_and_trend w = (Ok unavailable, w'))
  /\ (forall r,
        http w (requests w) = Responded r -> status_code r = 429 ->
        exists w',
          fetch_price_and_trend w = (Ok unavailable, w')
          /\ trace w'
             = trace w ++ [EvGet API_URL; EvPrint MsgRateLimit; EvSleep 60]
          /\ keys w' = keys w).
Proof.
  split; [apply fetch_returns|]. split.
  - intros [Hhttp | r Hhttp Hs | r Hhttp Hb | r data name Hhttp Hb Hname Hmiss
            | e w' Hraise].
    + eexists. apply fetch_handles, fetch_body_no_answer, Hhttp.
    + eexists. eapply fetch_passes, fetch_body_rate_limited; eassumption.
    + destruct (Z.eq_dec (status_code r) 429) as [Hs|Hs].
      * eexists. eapply fetch_passes, fetch_body_rate_limited; eassumption.
      * eexists. eapply fetch_handles, fetch_body_malformed; eassumption.
    + destruct (Z.eq_dec (status_code r) 429) as [Hs|Hs].
      * eexists. eapply fetch_passes, fetch_body_rate_limited; eassumption.
      * pose proof (fetch_body_decoded _ _ _ Hhttp Hs Hb) as Hbody.
        destruct (parse_quote_missing data name Hname Hmiss) as [Hq | [e Hq]];
          rewrite Hq in Hbody.
        -- eexists. apply fetch_passes, Hbody.
        -- eexists. apply fetch_handles, Hbody.
    + eexists. apply fetch_handles, Hraise.
  - intros r Hhttp Hs. eexists. split.
    + eapply fetch_passes, fetch_body_rate_limited; eassumption.
    + split; [|reflexivity]. simpl. rewrite <- !app_assoc. reflexivity.
Qed.

(** ** The device sink *)

Section Device.

Context {native : Type}.
Variable to_native_format : image -> native.
Implicit Types w : @world native.

Lemma set_key_image_accepted key (img : native) w :
  0 <= key <= Z.of_nat (length (keys w)) ->
  set_key_image key img w
  = (Ok tt,
     {| http := http w; requests := requests w;
        keys := <[Z.to_nat key := img]> (keys w);
        trace := trace w ++ [EvSetKeyImage key img] |}).
Proof.
  intros [H0 H1]. unfold set_key_image.
  destruct (Z.leb_spec 0 key); [|lia].
  destruct (Z.leb_spec key (Z.of_nat (length (keys w)))); [|lia].
  reflexivity.
Qed.

Lemma set_key_image_ok key (img : native) w :
  0 <= key < Z.of_nat (length (keys w)) ->
  set_key_image key img w
  = (Ok tt,
     {| http := http w; requests := requests w;
        keys := <[Z.to_nat key := img]> (keys w);
        trace := trace w ++ [EvSetKeyImage key img] |}).
Proof. intros H. apply set_key_image_accepted. lia. Qed.

Lemma set_key_image_raises key (img : native) w :
  ~ 0 <= key <= Z.of_nat (length (keys w)) ->
  set_key_image key img w = (Raise IndexError, w).
Proof.
  intros H. unfold set_key_image.
  destruct (Z.leb_spec 0 key); [|reflexivity].
  destruct (Z.leb_spec key (Z.of_nat (length (keys w)))); [lia|].
  reflexivity.
Qed.

(** The blanking loop over any list of valid key indices: it succeeds,
    writes the blank bitmap to the indices outside [used], in order, and
    to nothing else. *)
Lemma blank_loop (used l : list Z) w :
  Forall (fun k => 0 <= k < Z.of_nat (length (keys w))) l ->
  exists w',
    for_each l (blank_step to_native_format used) w = (Ok tt, w')
    /\ length (keys w') = length (keys w)
    /\ http w' = http w /\ requests w' = requests w
    /\ trace w'
       = trace w
         ++ map (fun k => EvSetKeyImage k (blank_native to_native_format))
              (List.filter (fun k => bool_decide (k ∉ used)) l)
    /\ (forall k, (k ∈ l) -> (k ∉ used) ->
          keys w' !! Z.to_nat k = Some (blank_native to_native_format))
    /\ (forall i, (Z.of_nat i ∉ l) \/ (Z.of_nat i ∈ used) ->
          keys w' !! i = keys w !! i).
Proof.
  revert w. induction l as [|k l IH]; intros w Hl.
  - exists w. simpl. rewrite app_nil_r. repeat split; auto.
    intros k Hk. apply elem_of_nil in Hk. destruct Hk.
  - apply Forall_cons in Hl as [Hk Hl].
    simpl for_each. unfold bind, blank_step at 1.
    destruct (decide (k ∉ used)) as [Hout|Hin].
    + rewrite (bool_decide_eq_true_2 _ Hout), (set_key_image_ok _ _ _ Hk).
      set (w1 := {| http := http w; requests := requests w;
                    keys := <[Z.to_nat k := blank_native to_native_format]> (keys w);
                    trace := trace w ++ [EvSetKeyImage k (blank_native to_native_format)] |}).
      destruct (IH w1) as (w' & Hrun & Hlen & Hhttp & Hreq & Htrace & Hblank & Hkeep).
      { simpl. rewrite length_insert. exact Hl. }
      exists w'. split; [exact Hrun|].
      split; [rewrite Hlen; apply length_insert|].
      split; [exact Hhttp|]. split; [exact Hreq|]. split.
      { rewrite Htrace. simpl. rewrite (bool_decide_eq_true_2 _ Hout).
        rewrite <- app_assoc. reflexivity. }
      split.
      * intros j Hj Hjout.
        destruct (decide (j ∈ l)) as [Hjl|Hjl]; [apply Hblank; assumption|].
        apply elem_of_cons in Hj as [-> | Hj]; [|contradiction].
        rewrite Hkeep by (left; rewrite Z2Nat.id by lia; exact Hjl).
        simpl. apply list_lookup_insert_eq. lia.
      * intros i Hi.
        rewrite Hkeep
          by (destruct Hi as [Hi|Hi]; [left | right; exact Hi];
              intros Hil; apply Hi; apply elem_of_cons; right; exact Hil).
        simpl. apply list_lookup_insert_ne.
        intros E. destruct Hi as [Hi|Hi].
        -- apply Hi. apply elem_of_cons. left. lia.
        -- apply Hout. replace k with (Z.of_nat i) by lia. exact Hi.
    + rewrite (bool_decide_eq_false_2 _ Hin). unfold ret.
      destruct (IH w Hl) as (w' & Hrun & Hlen & Hhttp & Hreq & Htrace & Hblank & Hkeep).
      exists w'. split; [exact Hrun|]. split; [exact Hlen|].
      split; [exact Hhttp|]. split; [exact Hreq|]. split.
      { rewrite Htrace. simpl. rewrite (bool_decide_eq_false_2 _ Hin).
        reflexivity. }
      split.
      * intros j Hj Hjout. apply Hblank; [|exact Hjout].
        apply elem_of_cons in Hj as [-> | Hj]; [contradiction | exact Hj].
      * intros i Hi. apply Hkeep.
        destruct Hi as [Hi|Hi]; [left | right; exact Hi].
        intros Hil. apply Hi. apply elem_of_cons. right. exact Hil.
Qed.

Lemma fill_unused_keys_unfold (used : list Z) w :
  fill_unused_keys to_native_format used w
  = for_each (seqZ 0 (Z.of_nat (length (keys w))))
      (blank_step to_native_format used) w.
Proof. reflexivity. Qed.

(** [fill_unused_keys] on any device, whatever its key count. *)
Lemma fill_unused_keys_spec (used : list Z) w :
  exists w',
    fill_unused_keys to_native_format used w = (Ok tt, w')
    /\ length (keys w') = length (keys w)
    /\ trace w'
       = trace w
         ++ map (fun k => EvSetKeyImage k (blank_native to_native_format))
              (List.filter (fun k => bool_decide (k ∉ used))
                 (seqZ 0 (Z.of_nat (length (keys w)))))
    /\ (forall k, 0 <= k < Z.of_nat (length (keys w)) -> (k ∉ used) ->
          keys w' !! Z.to_nat k = Some (blank_native to_native_format))
    /\ (forall k, 0 <= k -> (k ∈ used) ->
          keys w' !! Z.to_nat k = keys w !! Z.to_nat k).
Proof.
  rewrite fill_unused_keys_unfold.
  destruct (blank_loop used (seqZ 0 (Z.of_nat (length (keys w)))) w)
    as (w' & Hrun & Hlen & _ & _ & Htrace & Hblank & Hkeep).
  { apply Forall_forall. intros k Hk. apply elem_of_seqZ in Hk. lia. }
  exists w'. split; [exact Hrun|]. split; [exact Hlen|].
  split; [exact Htrace|]. split.
  - intros k Hk Hout. apply Hblank; [|exact Hout].
    apply elem_of_seqZ. lia.
  - intros k H0 Hk. apply Hkeep. right. rewrite Z2Nat.id by lia. exact Hk.
Qed.

End Device.

Lemma used_keys_elem (k : Z) : k ∈ used_keys <-> 4 <= k <= 10.
Proof.
  unfold used_keys. rewrite !elem_of_cons, elem_of_nil. lia.
Qed.

Section DeviceClaims.

Context {native : Type}.
Variable to_native_format : image -> native.
Implicit Types w : @world native.

Lemma push_from_length i (tile_images : list image) w r w' :
  push_from to_native_format i tile_images w = (r, w') ->
  length (keys w') = length (keys w).
Proof.
  revert i w. induction tile_images as [|img rest IH]; intros i w H.
  - injection H as _ <-. reflexivity.
  - simpl in H. unfold bind, lift in H.
    destruct (key_map !! i) as [k|]; [|injection H as _ <-; reflexivity].
    destruct (decide (0 <= k <= Z.of_nat (length (keys w)))) as [Hk|Hk].
    + rewrite (set_key_image_accepted _ _ _ Hk) in H.
      apply IH in H. rewrite H. simpl. apply length_insert.
    + rewrite (set_key_image_raises _ _ _ Hk) in H.
      injection H as _ <-. reflexivity.
Qed.

Lemma used_keys_nonneg k : k ∈ used_keys -> 0 <= k.
Proof.
  unfold used_keys. rewrite !elem_of_cons, elem_of_nil.
  intros H. repeat (destruct H as [-> | H]; [lia|]). destruct H.
Qed.

(** The keys outside the used-set, as the loop of [fill_unused_keys] meets
    them. *)
Lemma unused_keys_filter (n : Z) :
  List.filter (fun k => bool_decide (k ∉ used_keys)) (seqZ 0 n)
  = List.filter (fun k => (k <? 4) || (10 <? k)) (seqZ 0 n).
Proof.
  apply List.filter_ext. intros k.
  destruct (decide (4 <= k <= 10)) as [Hin|Hout].
  - rewrite bool_decide_eq_false_2 by (rewrite used_keys_elem; tauto). lia.
  - rewrite bool_decide_eq_true_2 by (rewrite used_keys_elem; exact Hout).
    lia.
Qed.

(** C6. The used-set is the six tile slots (keys 5, 6, 7, 8, 4, 9) and the
    countdown slot (key 10), that is the keys 4 to 10.  After every
    successful push of the tiles, on a device of any key count (so of every
    key count from the size of the used-set on), [fill_unused_keys]
    succeeds and writes the solid black 72x72 bitmap, converted to the
    native format, to every key index of the device below 4 or above 10,
    in ascending order and to no other key: the keys 4 to 10 keep what the
    push left on them. *)
Theorem blanking_after_push (tile_images : list image) w w1 :
  push_to_streamdeck_tile_images to_native_format tile_images w
  = (Ok tt, w1) ->
  exists w2,
    fill_unused_keys to_native_format used_keys w1 = (Ok tt, w2)
    /\ length (keys w2) = length (keys w)
    /\ (forall k, 0 <= k < Z.of_nat (length (keys w)) -> k < 4 \/ 10 < k ->
          keys w2 !! Z.to_nat k
          = Some (to_native_format
                    {| img_mode := "RGB"; img_size := (72, 72);
                       img_background := (0, 0, 0); img_draws := [] |}))
    /\ (forall k, 4 <= k <= 10 ->
          keys w2 !! Z.to_nat k = keys w1 !! Z.to_nat k)
    /\ trace w2
       = trace w1
         ++ map (fun k =>
                   EvSetKeyImage k
                     (to_native_format
                        {| img_mode := "RGB"; img_size := (72, 72);
                           img_background := (0, 0, 0); img_draws := [] |}))
              (List.filter (fun k => (k <? 4) || (10 <? k))
                 (seqZ 0 (Z.of_nat (length (keys w)))))
    /\ (forall k, k ∈ used_keys <-> 4 <= k <= 10)
    /\ (forall k, k ∈ used_keys <-> k ∈ key_map \/ k = 10)
    /\ (forall textbbox seconds_left w',
          update_timer textbbox to_native_format seconds_left w'
          = set_key_image 10
              (to_native_format (timer_image textbbox seconds_left)) w').
Proof.
  intros Hpush. apply push_from_length in Hpush.
  destruct (fill_unused_keys_spec to_native_format used_keys w1)
    as (w2 & Hrun & Hlen & Htrace & Hblank & Hkeep).
  rewrite Hpush in *.
  exists w2. split; [exact Hrun|]. split; [exact Hlen|].
  split; [|split; [|split; [|split; [|split]]]].
  - intros k Hk Hout. apply Hblank; [exact Hk|].
    rewrite used_keys_elem. lia.
  - intros k Hk. apply Hkeep; [lia|]. apply used_keys_elem, Hk.
  - rewrite Htrace, unused_keys_filter. reflexivity.
  - exact used_keys_elem.
  - intros k. rewrite used_keys_elem. unfold key_map.
    rewrite !elem_of_cons, elem_of_nil. lia.
  - reflexivity.
Qed.

End DeviceClaims.

(** The theorem on a 15-key deck: keys 0-3 and 11-14 are blanked. *)
Lemma blanking_after_push_witness :
  push_to_streamdeck_tile_images id sample_tiles offline_world
  = (Ok tt, pushed_world)
  /\ exists w2,
       fill_unused_keys id used_keys pushed_world = (Ok tt, w2)
       /\ length (keys w2) = length (keys offline_world)
       /\ (forall k, 0 <= k < Z.of_nat (length (keys offline_world)) ->
             k < 4 \/ 10 < k ->
             keys w2 !! Z.to_nat k
             = Some {| img_mode := "RGB"; img_size := (72, 72);
                       img_background := (0, 0, 0); img_draws := [] |})
       /\ (forall k, 4 <= k <= 10 ->
             keys w2 !! Z.to_nat k = keys pushed_world !! Z.to_nat k)
       /\ trace w2
          = trace pushed_world
            ++ map (fun k =>
                      EvSetKeyImage k
                        {| img_mode := "RGB"; img_size := (72, 72);
                           img_background := (0, 0, 0); img_draws := [] |})
                 [0; 1; 2; 3; 11; 12; 13; 14].
Proof.
  assert (push_to_streamdeck_tile_images id sample_tiles offline_world
          = (Ok tt, pushed_world)) as Hpush by (vm_compute; reflexivity).
  split; [exact Hpush|].
  destruct (blanking_after_push id sample_tiles offline_world pushed_world
              Hpush) as (w2 & Hrun & Hlen & Hblank & Hkeep & Htrace & _).
  exists w2. split; [exact Hrun|]. split; [exact Hlen|].
  split; [exact Hblank|]. split; [exact Hkeep | exact Htrace].
Defined.

Example blanked_keys_of_15 :
  List.filter (fun k => bool_decide (k ∉ used_keys)) (seqZ 0 15)
  = [0; 1; 2; 3; 11; 12; 13; 14].
Proof. vm_compute. reflexivity. Qed.

(** ** The driver loop *)

Section Driver.

Variable textbbox : font -> str -> Z * Z * Z * Z.
Context {native : Type}.
Variable to_native_format : image -> native.
Implicit Types w : @world native.

Lemma loop_body_unavailable w w1 :
  fetch_price_and_trend w = (Ok unavailable, w1) ->
  loop_body textbbox to_native_format w
  = (Ok tt, emit (EvSleep REFRESH_INTERVAL) w1).
Proof. intros Hfetch. unfold loop_body, bind. rewrite Hfetch. reflexivity. Qed.

(** C5. In a pass of the driver loop whose fetch returns "unavailable"
    nothing is rendered and nothing is written to the device: after the
    fetch the pass only sleeps the refresh interval, leaves every key as it
    was, and the loop goes on with the next fetch. *)
Theorem loop_skips_cycle_when_unavailable w w1 :
  fetch_price_and_trend w = (Ok unavailable, w1) ->
  loop_body textbbox to_native_format w
  = (Ok tt, emit (EvSleep REFRESH_INTERVAL) w1)
  /\ keys (emit (EvSleep REFRESH_INTERVAL) w1) = keys w
  /\ (exists evs,
        trace (emit (EvSleep REFRESH_INTERVAL) w1)
        = trace w ++ EvGet API_URL :: evs ++ [EvSleep REFRESH_INTERVAL]
        /\ Forall (fun e => forall k img, e ≠ EvSetKeyImage k img) evs)
  /\ (forall n,
        main_loop textbbox to_native_format (S n) w
        = main_loop textbbox to_native_format n
            (emit (EvSleep REFRESH_INTERVAL) w1)).
Proof.
  intros Hfetch.
  pose proof (loop_body_unavailable _ _ Hfetch) as Hbody.
  destruct (fetch_keys _ _ _ Hfetch) as (Hkeys & _ & evs & Htrace & Hevs).
  split; [exact Hbody|]. split; [exact Hkeys|]. split.
  - exists evs. split; [|exact Hevs].
    simpl. rewrite Htrace, <- app_assoc. reflexivity.
  - intros n. simpl main_loop. unfold bind. rewrite Hbody. reflexivity.
Qed.

(** The price is [None] only in the "unavailable" result. *)
Lemma fetch_price_none w trend change_24h w1 :
  fetch_price_and_trend w = (Ok (PyNone, trend, change_24h), w1) ->
  (PyNone, trend, change_24h) = unavailable.
Proof.
  intros Hfetch.
  destruct (http w (requests w)) as [|r] eqn:Hhttp.
  { rewrite (fetch_handles _ _ _ (fetch_body_no_answer _ Hhttp)) in Hfetch.
    injection Hfetch as <- <- _. reflexivity. }
  destruct (Z.eq_dec (status_code r) 429) as [Hs|Hs].
  { rewrite (fetch_passes _ _ _ (fetch_body_rate_limited _ _ Hhttp Hs)) in Hfetch.
    injection Hfetch as <- <- _. reflexivity. }
  destruct (body r) as [data|] eqn:Hb.
  - pose proof (fetch_body_decoded _ _ _ Hhttp Hs Hb) as Hbody.
    destruct (parse_quote data) as [[q|]|e] eqn:Hq.
    + rewrite (fetch_passes _ _ _ Hbody) in Hfetch. injection Hfetch as -> _.
      apply parse_quote_some in Hq as (Hnone & _). discriminate Hnone.
    + rewrite (fetch_passes _ _ _ Hbody) in Hfetch.
      injection Hfetch as <- <- _. reflexivity.
    + rewrite (fetch_handles _ _ _ Hbody) in Hfetch.
      injection Hfetch as <- <- _. reflexivity.
  - rewrite (fetch_handles _ _ _ (fetch_body_malformed _ _ Hhttp Hs Hb)) in Hfetch.
    injection Hfetch as <- <- _. reflexivity.
Qed.

(** X18. A rate-limited pass: the request, the message, the 60-second
    back-off of the fetcher, then the refresh interval on top of it, so
    ninety seconds pass before the next request; no key is written. *)
Lemma loop_body_rate_limited w r :
  http w (requests w) = Responded r -> status_code r = 429 ->
  exists w',
    loop_body textbbox to_native_format w = (Ok tt, w')
    /\ keys w' = keys w
    /\ trace w'
       = trace w ++ [EvGet API_URL; EvPrint MsgRateLimit; EvSleep 60;
                     EvSleep REFRESH_INTERVAL].
Proof.
  intros Hhttp Hs.
  pose proof (fetch_passes _ _ _ (fetch_body_rate_limited _ _ Hhttp Hs))
    as Hfetch.
  eexists. split; [exact (loop_body_unavailable _ _ Hfetch)|].
  split; [reflexivity|].
  simpl. rewrite <- !app_assoc. reflexivity.
Qed.

(** *** Rendering *)

Lemma vertical_offset_tile text color path size y_offset :
  vertical_offset textbbox
    (create_tile_image textbbox text color path size
       KEY_WIDTH KEY_HEIGHT y_offset)
  = Some y_offset.
Proof.
  unfold vertical_offset, create_tile_image.
  destruct (textbbox (truetype path size) text) as [[[x0 y0] x1] y1] eqn:E.
  simpl. rewrite E. f_equal. lia.
Qed.

Lemma drawn_text_tile text color path size y_offset :
  drawn_text (create_tile_image textbbox text color path size
                KEY_WIDTH KEY_HEIGHT y_offset)
  = text.
Proof.
  unfold drawn_text, create_tile_image.
  destruct (textbbox (truetype path size) text) as [[[x0 y0] x1] y1].
  reflexivity.
Qed.

Lemma render_six color (t1 t2 t3 t4 t5 t6 : str) :
  render_tiles textbbox color 0 [t1; t2; t3; t4; t5; t6] []
  = Ok [ create_tile_image textbbox t1 color FONT_PATH 42
           KEY_WIDTH KEY_HEIGHT y_offset_for_price_and_arrow;
         create_tile_image textbbox t2 color FONT_PATH 42
           KEY_WIDTH KEY_HEIGHT y_offset_for_price_and_arrow;
         create_tile_image textbbox t3 color FONT_PATH 37
           KEY_WIDTH KEY_HEIGHT y_offset_for_price_and_arrow;
         create_tile_image textbbox t4 color FONT_PATH 39
           KEY_WIDTH KEY_HEIGHT y_offset_for_price_and_arrow;
         create_tile_image textbbox t5 color FONT_PATH 20
           KEY_WIDTH KEY_HEIGHT 0;
         create_tile_image textbbox t6 color FONT_PATH 48
           KEY_WIDTH KEY_HEIGHT y_offset_for_price_and_arrow ].
Proof. reflexivity. Qed.

(** C9, amended. The vertical centring offset of 6 pixels is applied to
    the four price tiles (tiles 1-3 and the decimal tile 4) and to the
    arrow tile 6; only the percent tile 5 is rendered with no vertical
    offset. *)
Theorem offset_on_price_and_arrow_tiles
    (price : Q) (trend : Z) (percent_change : Q) :
  exists i1 i2 i3 i4 i5 i6,
    create_price_images textbbox price trend percent_change
    = Ok [i1; i2; i3; i4; i5; i6]
    /\ tile_texts price trend percent_change
       = Ok (map drawn_text [i1; i2; i3; i4; i5; i6])
    /\ map (vertical_offset textbbox) [i1; i2; i3; i4; i5; i6]
       = [Some 6; Some 6; Some 6; Some 6; Some 0; Some 6].
Proof.
  destruct (tile_texts_shape price trend percent_change)
    as (x & pre & t3 & rest & Heq & _).
  unfold create_price_images. rewrite Heq. unfold rbind.
  rewrite render_six. eexists _, _, _, _, _, _. split; [reflexivity|].
  split.
  - unfold map. rewrite !drawn_text_tile. reflexivity.
  - unfold map. rewrite !vertical_offset_tile. reflexivity.
Qed.

End Driver.

(** The theorem C5 on the offline deck. *)
Lemma loop_skips_cycle_when_unavailable_witness :
  let w1 := emit (EvPrint (MsgFetchError RequestException))
              (requested offline_world) in
  fetch_price_and_trend offline_world = (Ok unavailable, w1)
  /\ loop_body sample_textbbox id offline_world
     = (Ok tt, emit (EvSleep REFRESH_INTERVAL) w1)
  /\ keys (emit (EvSleep REFRESH_INTERVAL) w1) = keys offline_world.
Proof.
  intros w1.
  assert (fetch_price_and_trend offline_world = (Ok unavailable, w1)) as Hfetch
    by reflexivity.
  split; [exact Hfetch|].
  destruct (loop_skips_cycle_when_unavailable sample_textbbox id
              offline_world w1 Hfetch) as (Hbody & Hkeys & _).
  split; [exact Hbody | exact Hkeys].
Defined.

(** C9, as the specification states it, fails: the decimal tile 4 is
    rendered with the vertical offset too. *)
Lemma decimal_tile_is_offset :
  exists images,
    create_price_images sample_textbbox (123456 # 100) 1 (123 # 100)
    = Ok images
    /\ (images !! 3%nat ≫= vertical_offset sample_textbbox) ≠ Some 0.
Proof.
  eexists. split; [vm_compute; reflexivity|].
  vm_compute. discriminate.
Qed.

(** ** The program on sample inputs *)

Example tiles_12345_67 :
  tile_texts (1234567 # 100) 1 (123 # 100)
  = Ok (strs ["$1"; "2,"; "345"; ".67"; "+1.23%"; "▲"]).
Proof. vm_compute. reflexivity. Qed.

Example tiles_987_65 :
  tile_texts (98765 # 100) (-1) (- (1 # 2))
  = Ok (strs ["$9"; "87,"; ""; ".65"; "-0.50%"; "▼"]).
Proof. vm_compute. reflexivity. Qed.

Example tiles_123456_78 :
  tile_texts (12345678 # 100) 0 0
  = Ok (strs ["$1"; "23,"; "456"; ".78"; "+0.00%"; "-"]).
Proof. vm_compute. reflexivity. Qed.

Example tiles_5 :
  tile_texts 5 0 0 = Ok (strs ["$5"; ","; ""; ".00"; "+0.00%"; "-"]).
Proof. vm_compute. reflexivity. Qed.

Example format_ties_to_even :
  map format_comma_2f [1 # 8; 3 # 8; - (1 # 1000); 999995 # 1000]%Q
  = strs ["0.12"; "0.38"; "-0.00"; "1,000.00"].
Proof. vm_compute. reflexivity. Qed.

Example fetch_rate_limited :
  fetch_price_and_trend rate_limited_world
  = (Ok unavailable,
     {| http := http rate_limited_world; requests := 1;
        keys := keys rate_limited_world;
        trace := [EvGet API_URL; EvPrint MsgRateLimit; EvSleep 60] |}).
Proof. reflexivity. Qed.

Example fetch_quote :
  fst (fetch_price_and_trend quoting_world)
  = Ok (PyNum (1234567 # 100), -1, PyNum (- (3 # 2))).
Proof. vm_compute. reflexivity. Qed.

Example display_pass :
  let '(r, w) := loop_body sample_textbbox id quoting_world in
  r = Ok tt
  /\ map (fun k => keys w !! k ≫= fun img => text_str <$> head (img_draws img))
       [5; 6; 7; 8; 4; 9; 10; 0; 14]%nat
     = map Some (strs ["$1"; "2,"; "345"; ".67"; "-1.50%"; "▼"; "1s"])
       ++ [None; None]
  /\ length (trace w) = 76%nat.
Proof. vm_compute. auto. Qed.

(** * Further properties of the program *)

(** ** The fetcher, call by call *)

Lemma parse_quote_well_formed (m b : gmap string pyval)
    (price change_24h : pyval) (change : pynum) :
  m !! "bitcoin"%string = Some (PyDict b) ->
  b !! "usd"%string = Some price -> price ≠ PyNone ->
  b !! "usd_24h_change"%string = Some change_24h ->
  as_number change_24h = Ok change ->
  parse_quote (PyDict m)
  = Ok (Some (price, trend_of_change change, change_24h)).
Proof.
  intros Hm Hp Hnp Hc Hnum. unfold parse_quote, py_get.
  rewrite Hm. simpl rbind. rewrite Hp. simpl rbind. rewrite Hc. simpl rbind.
  assert (is_none price = false) as ->
    by (destruct price; try reflexivity; congruence).
  assert (is_none change_24h = false) as ->
    by (destruct change_24h; try reflexivity; discriminate Hnum).
  simpl orb. cbv iota. rewrite Hnum. reflexivity.
Qed.

Lemma parse_quote_not_number (m b : gmap string pyval)
    (price change_24h : pyval) (e : exn) :
  m !! "bitcoin"%string = Some (PyDict b) ->
  b !! "usd"%string = Some price -> price ≠ PyNone ->
  b !! "usd_24h_change"%string = Some change_24h -> change_24h ≠ PyNone ->
  as_number change_24h = Raise e ->
  parse_quote (PyDict m) = Raise e.
Proof.
  intros Hm Hp Hnp Hc Hnc Hnum. unfold parse_quote, py_get.
  rewrite Hm. simpl rbind. rewrite Hp. simpl rbind. rewrite Hc. simpl rbind.
  assert (is_none price = false) as ->
    by (destruct price; try reflexivity; congruence).
  assert (is_none change_24h = false) as ->
    by (destruct change_24h; try reflexivity; congruence).
  simpl orb. cbv iota. rewrite Hnum. reflexivity.
Qed.

Section FetcherCalls.

Context {native : Type}.
Implicit Types w : @world native.

(** Every way a call can go. *)
Lemma fetch_cases w :
  (http w (requests w) = ConnectionFailed
   /\ fetch_price_and_trend w
      = (Ok unavailable,
         emit (EvPrint (MsgFetchError RequestException)) (requested w)))
  \/ (exists r,
        http w (requests w) = Responded r /\ status_code r = 429
        /\ fetch_price_and_trend w
           = (Ok unavailable,
              emit (EvSleep 60) (emit (EvPrint MsgRateLimit) (requested w))))
  \/ (exists r,
        http w (requests w) = Responded r /\ status_code r ≠ 429
        /\ body r = None
        /\ fetch_price_and_trend w
           = (Ok unavailable,
              emit (EvPrint (MsgFetchError JSONDecodeError)) (requested w)))
  \/ (exists r data,
        http w (requests w) = Responded r /\ status_code r ≠ 429
        /\ body r = Some data /\ parse_quote data = Ok None
        /\ fetch_price_and_trend w
           = (Ok unavailable,
              emit (EvPrint (MsgUnexpectedResponse data)) (requested w)))
  \/ (exists r data e,
        http w (requests w) = Responded r /\ status_code r ≠ 429
        /\ body r = Some data /\ parse_quote data = Raise e
        /\ fetch_price_and_trend w
           = (Ok unavailable,
              emit (EvPrint (MsgFetchError e)) (requested w)))
  \/ (exists r data quote,
        http w (requests w) = Responded r /\ status_code r ≠ 429
        /\ body r = Some data /\ parse_quote data = Ok (Some quote)
        /\ fetch_price_and_trend w = (Ok quote, requested w)).
Proof.
  destruct (http w (requests w)) as [|r] eqn:Hhttp.
  { left. split; [reflexivity|].
    apply fetch_handles, fetch_body_no_answer, Hhttp. }
  right. destruct (Z.eq_dec (status_code r) 429) as [Hs|Hs].
  { left. exists r. repeat split; try assumption.
    eapply fetch_passes, fetch_body_rate_limited; eassumption. }
  right. destruct (body r) as [data|] eqn:Hb.
  - right. pose proof (fetch_body_decoded _ _ _ Hhttp Hs Hb) as Hbody.
    destruct (parse_quote data) as [[q|]|e] eqn:Hq.
    + do 2 right. exists r, data, q. repeat split; try assumption.
      apply fetch_passes, Hbody.
    + left. exists r, data. repeat split; try assumption.
      apply fetch_passes, Hbody.
    + right. left. exists r, data, e. repeat split; try assumption.
      apply fetch_handles, Hbody.
  - left. exists r. repeat split; try assumption.
    eapply fetch_handles, fetch_body_malformed; eassumption.
Qed.

Lemma fetch_http w quote w' :
  fetch_price_and_trend w = (quote, w') -> http w' = http w.
Proof.
  intros H.
  destruct (fetch_cases w)
    as [[_ E] | [(? & _ & _ & E) | [(? & _ & _ & _ & E)
       | [(? & ? & _ & _ & _ & _ & E) | [(? & ? & ? & _ & _ & _ & _ & E)
       | (? & ? & ? & _ & _ & _ & _ & E)]]]]];
    rewrite E in H; injection H as _ <-; reflexivity.
Qed.

(** X1. A call of [fetch_price_and_trend] sends exactly one request, as its
    first action, and never writes to the device; apart from the request
    it only prints, and it sleeps (60 seconds) only when the answer has
    status 429. *)
Theorem fetch_effects w :
  let w' := snd (fetch_price_and_trend w) in
  keys w' = keys w /\ http w' = http w /\ requests w' = S (requests w)
  /\ exists evs,
       trace w' = trace w ++ EvGet API_URL :: evs
       /\ Forall (fun e =>
            match e with
            | EvPrint _ => True
            | EvSleep seconds =>
                seconds = 60
                /\ exists r, http w (requests w) = Responded r
                             /\ status_code r = 429
            | _ => False
            end) evs.
Proof.
  destruct (fetch_cases w)
    as [[_ ->] | [(r & Hhttp & Hs & ->) | [(r & _ & _ & _ & ->)
       | [(r & data & _ & _ & _ & _ & ->) | [(r & data & e & _ & _ & _ & _ & ->)
       | (r & data & q & _ & _ & _ & _ & ->)]]]]];
    simpl; repeat split.
  - exists [EvPrint (MsgFetchError RequestException)].
    split; [rewrite <- ?app_assoc; reflexivity | repeat constructor].
  - exists [EvPrint MsgRateLimit; EvSleep 60].
    split; [rewrite <- ?app_assoc; reflexivity|].
    repeat constructor. exists r. auto.
  - exists [EvPrint (MsgFetchError JSONDecodeError)].
    split; [rewrite <- ?app_assoc; reflexivity | repeat constructor].
  - exists [EvPrint (MsgUnexpectedResponse data)].
    split; [rewrite <- ?app_assoc; reflexivity | repeat constructor].
  - exists [EvPrint (MsgFetchError e)].
    split; [rewrite <- ?app_assoc; reflexivity | repeat constructor].
  - exists []. split; [reflexivity | constructor].
Qed.

Lemma fetch_well_formed w r (m b : gmap string pyval)
    (price change_24h : pyval) (change : pynum) :
  http w (requests w) = Responded r -> status_code r ≠ 429 ->
  body r = Some (PyDict m) ->
  m !! "bitcoin"%string = Some (PyDict b) ->
  b !! "usd"%string = Some price -> price ≠ PyNone ->
  b !! "usd_24h_change"%string = Some change_24h ->
  as_number change_24h = Ok change ->
  fetch_price_and_trend w
  = (Ok (price, trend_of_change change, change_24h), requested w).
Proof.
  intros Hhttp Hs Hb Hm Hp Hnp Hc Hnum.
  pose proof (fetch_body_decoded _ _ _ Hhttp Hs Hb) as Hbody.
  rewrite (parse_quote_well_formed _ _ _ _ _ Hm Hp Hnp Hc Hnum) in Hbody.
  apply fetch_passes, Hbody.
Qed.

(** X2. When the answer is not a 429 and its JSON body holds, under
    ["bitcoin"], a non-null ["usd"] and a numeric ["usd_24h_change"], the
    call returns the price as it came (of whatever JSON type), the trend of
    the change and the change, having done nothing but the request: no
    message, no delay. *)
Theorem fetch_returns_quote w r (m b : gmap string pyval)
    (price change_24h : pyval) (change : pynum) :
  http w (requests w) = Responded r -> status_code r ≠ 429 ->
  body r = Some (PyDict m) ->
  m !! "bitcoin"%string = Some (PyDict b) ->
  b !! "usd"%string = Some price -> price ≠ PyNone ->
  b !! "usd_24h_change"%string = Some change_24h ->
  as_number change_24h = Ok change ->
  exists w',
    fetch_price_and_trend w
    = (Ok (price, trend_of_change change, change_24h), w')
    /\ trace w' = trace w ++ [EvGet API_URL]
    /\ keys w' = keys w.
Proof.
  intros Hhttp Hs Hb Hm Hp Hnp Hc Hnum. exists (requested w).
  split; [|split; reflexivity].
  eapply fetch_well_formed; eassumption.
Qed.

(** X3. When price and change are both present and not null but the change
    is not a number (a string, a list, an object), the comparison with zero
    raises [TypeError] inside the [try] block: the call prints the error
    and returns "unavailable". *)
Theorem fetch_change_not_number w r (m b : gmap string pyval)
    (price change_24h : pyval) :
  http w (requests w) = Responded r -> status_code r ≠ 429 ->
  body r = Some (PyDict m) ->
  m !! "bitcoin"%string = Some (PyDict b) ->
  b !! "usd"%string = Some price -> price ≠ PyNone ->
  b !! "usd_24h_change"%string = Some change_24h ->
  change_24h ≠ PyNone ->
  (forall q, change_24h ≠ PyNum q) -> (forall x, change_24h ≠ PyBool x) ->
  fetch_price_and_trend w
  = (Ok unavailable, emit (EvPrint (MsgFetchError TypeError)) (requested w)).
Proof.
  intros Hhttp Hs Hb Hm Hp Hnp Hc Hnc Hnum Hbool.
  pose proof (fetch_body_decoded _ _ _ Hhttp Hs Hb) as Hbody.
  assert (as_number change_24h = Raise TypeError) as Hraise.
  { destruct change_24h as [|x|q| | |]; try reflexivity.
    - destruct (Hbool x eq_refl).
    - destruct (Hnum q eq_refl). }
  rewrite (parse_quote_not_number _ _ _ _ _ Hm Hp Hnp Hc Hnc Hraise) in Hbody.
  apply fetch_handles, Hbody.
Qed.

End FetcherCalls.

(** ** How the digits spread over the tiles *)

Module LayoutFacts.








End LayoutFacts.
Import LayoutFacts.











Example tiles_1234567_89 :
  tile_texts (123456789 # 100) 1 (123 # 100)
  = Ok (strs ["$1"; ","; "234567"; ".89"; "+1.23%"; "▲"]).
Proof. vm_compute. reflexivity. Qed.



(** ** The rendered tiles *)

Section Rendered.

Variable textbbox : font -> str -> Z * Z * Z * Z.

Lemma create_tile_image_draws text color path size key_width key_height
    y_offset :
  exists x y,
    create_tile_image textbbox text color path size key_width key_height
      y_offset
    = {| img_mode := "RGB"; img_size := (key_width, key_height);
         img_background := black;
         img_draws := [DrawText (x, y) text color (truetype path size)] |}
    /\ (let '(x0, y0, x1, y1) := textbbox (truetype path size) text in
        x = (key_width - (x1 - x0)) / 2
        /\ y = (key_height - (y1 - y0)) / 2 - y_offset).
Proof.
  unfold create_tile_image.
  destruct (textbbox (truetype path size) text) as [[[x0 y0] x1] y1].
  eexists _, _. split; [reflexivity | split; reflexivity].
Qed.

(** X8. A tile image is a black RGB canvas of the key's size with the text
    drawn once, in the given colour and font, so that the space left of the
    text's bounding-box width and the space right of it differ by at most
    one pixel, and likewise above and below once the text is moved down
    again by [y_offset].  A text larger than the key gets a negative
    position, not an error. *)
Theorem tile_text_centred text color path size key_width key_height y_offset :
  exists x y,
    create_tile_image textbbox text color path size key_width key_height
      y_offset
    = {| img_mode := "RGB"; img_size := (key_width, key_height);
         img_background := black;
         img_draws := [DrawText (x, y) text color (truetype path size)] |}
    /\ (let '(x0, y0, x1, y1) := textbbox (truetype path size) text in
        let text_width := x1 - x0 in
        let text_height := y1 - y0 in
        x <= key_width - text_width - x <= x + 1
        /\ y + y_offset <= key_height - text_height - (y + y_offset)
           <= y + y_offset + 1
        /\ (key_width < text_width -> x < 0)).
Proof.
  destruct (create_tile_image_draws text color path size key_width key_height
              y_offset) as (x & y & Himg & Hxy).
  exists x, y. split; [exact Himg|].
  destruct (textbbox (truetype path size) text) as [[[x0 y0] x1] y1].
  destruct Hxy as [-> ->]. cbv zeta.
  pose proof (Z.div_mod (key_width - (x1 - x0)) 2 ltac:(lia)).
  pose proof (Z.mod_pos_bound (key_width - (x1 - x0)) 2 ltac:(lia)).
  pose proof (Z.div_mod (key_height - (y1 - y0)) 2 ltac:(lia)).
  pose proof (Z.mod_pos_bound (key_height - (y1 - y0)) 2 ltac:(lia)).
  repeat split; lia.
Qed.

(** Six texts make six images: the canvas, colour, font file and sizes of
    each. *)
Lemma six_texts_rendered (trend : Z) (t1 t2 t3 t4 t5 t6 : str) :
  exists images,
    render_tiles textbbox (color_of trend) 0 [t1; t2; t3; t4; t5; t6] []
    = Ok images
    /\ map drawn_text images = [t1; t2; t3; t4; t5; t6]
    /\ length images = 6%nat
    /\ Forall (fun img =>
         img_mode img = "RGB"%string
         /\ img_size img = (72, 72)
         /\ img_background img = (0, 0, 0)
         /\ exists d,
              img_draws img = [d]
              /\ text_fill d
                 = (if 0 <? trend then (0, 255, 0)
                    else if trend <? 0 then (255, 0, 0)
                    else (255, 255, 255))
              /\ font_file (text_font d) = "DejaVuSansCondensed.ttf"%string)
         images
    /\ map (fun img => map (fun d => font_size (text_font d)) (img_draws img))
         images
       = [[42]; [42]; [37]; [39]; [20]; [48]].
Proof.
  rewrite render_six. eexists. split; [reflexivity|].
  split; [unfold map; rewrite !drawn_text_tile; reflexivity|].
  split; [reflexivity|].
  assert (forall text size y_offset,
            let img := create_tile_image textbbox text (color_of trend)
                         FONT_PATH size KEY_WIDTH KEY_HEIGHT y_offset in
            (img_mode img = "RGB"%string
             /\ img_size img = (72, 72)
             /\ img_background img = (0, 0, 0)
             /\ exists d,
                  img_draws img = [d]
                  /\ text_fill d
                     = (if 0 <? trend then (0, 255, 0)
                        else if trend <? 0 then (255, 0, 0)
                        else (255, 255, 255))
                  /\ font_file (text_font d) = "DejaVuSansCondensed.ttf"%string)
            /\ map (fun d => font_size (text_font d)) (img_draws img) = [size])
    as Htile.
  { intros text size y_offset img. subst img.
    destruct (create_tile_image_draws text (color_of trend) FONT_PATH size
                KEY_WIDTH KEY_HEIGHT y_offset) as (px & py & -> & _).
    simpl. repeat split. eexists. repeat split. }
  split.
  - repeat (apply List.Forall_cons; [apply (proj1 (Htile _ _ _))|]).
    apply List.Forall_nil.
  - unfold map at 1. rewrite !(proj2 (Htile _ _ _)). reflexivity.
Qed.

(** A quote of numbers that print as floats, the price finite: six
    images. *)
Lemma create_price_images_six (p : pynum) (trend : Z) (c : pynum) fp fc :
  to_float p = Ok fp -> is_finite fp = true -> to_float c = Ok fc ->
  exists i1 i2 i3 i4 i5 i6,
    create_price_images textbbox p trend c = Ok [i1; i2; i3; i4; i5; i6]
    /\ tile_texts p trend c = Ok (map drawn_text [i1; i2; i3; i4; i5; i6]).
Proof.
  intros Hp Hfin Hc.
  destruct (tile_texts_number p trend c fp Hp Hfin)
    as (t1 & t2 & t3 & t4 & Heq).
  unfold num_plus_2f in Heq. rewrite Hc in Heq. simpl rbind in Heq.
  unfold create_price_images. rewrite Heq. unfold rbind.
  rewrite render_six. eexists _, _, _, _, _, _. split; [reflexivity|].
  unfold map. rewrite !drawn_text_tile. reflexivity.
Qed.

(** X9. What [create_price_images] returns, for every price and percent
    change that are numbers (the rendering calls taken as total).  It
    raises [OverflowError] when the price is an int beyond the float range
    (source line 71), raises [ValueError] when the price is an infinity or
    NaN (the unpacking of source line 74), and raises [OverflowError] when
    the price prints as a finite float and the percent change is an int
    beyond the float range (source line 88).  In every other case it
    returns exactly six images, each a 72x72 black RGB canvas with one text
    drawn in the colour of the trend (green above zero, red below, white at
    zero) in the one font file, at the sizes 42, 42, 37, 39, 20 and 48. *)
Theorem six_tiles_rendered (price : pynum) (trend : Z)
    (percent_change : pynum) :
  match to_float price, to_float percent_change with
  | Raise e, _ =>
      e = OverflowError
      /\ create_price_images textbbox price trend percent_change
         = Raise OverflowError
  | Ok fp, Raise e =>
      e = OverflowError
      /\ create_price_images textbbox price trend percent_change
         = Raise (if is_finite fp then OverflowError else ValueError)
  | Ok fp, Ok _ =>
      if is_finite fp then
        exists images,
          create_price_images textbbox price trend percent_change = Ok images
          /\ length images = 6%nat
          /\ Forall (fun img =>
               img_mode img = "RGB"%string
               /\ img_size img = (72, 72)
               /\ img_background img = (0, 0, 0)
               /\ exists d,
                    img_draws img = [d]
                    /\ text_fill d
                       = (if 0 <? trend then (0, 255, 0)
                          else if trend <? 0 then (255, 0, 0)
                          else (255, 255, 255))
                    /\ font_file (text_font d)
                       = "DejaVuSansCondensed.ttf"%string)
               images
          /\ map (fun img =>
                    map (fun d => font_size (text_font d)) (img_draws img))
               images
             = [[42]; [42]; [37]; [39]; [20]; [48]]
      else
        create_price_images textbbox price trend percent_change
        = Raise ValueError
  end.
Proof.
  destruct (to_float price) as [fp|e] eqn:Hp.
  2:{ pose proof (to_float_raises _ _ Hp) as ->.
      assert (create_price_images textbbox price trend percent_change
              = Raise OverflowError) as Hraise
        by (unfold create_price_images;
            rewrite (tile_texts_price_raises _ _ _ _ Hp); reflexivity).
      destruct (to_float percent_change); auto. }
  destruct (is_finite fp) eqn:Hfin.
  - destruct (tile_texts_number price trend percent_change fp Hp Hfin)
      as (t1 & t2 & t3 & t4 & Heq).
    unfold create_price_images. rewrite Heq. unfold num_plus_2f.
    destruct (to_float percent_change) as [fc|e] eqn:Hc.
    + simpl rbind.
      destruct (six_texts_rendered trend t1 t2 t3 t4
                  (float_plus_2f fc ++ lit "%") (arrow_of trend))
        as (images & Himages & _ & Hrest).
      exists images. split; [exact Himages | exact Hrest].
    + pose proof (to_float_raises _ _ Hc) as ->. split; reflexivity.
  - assert (create_price_images textbbox price trend percent_change
            = Raise ValueError) as Hraise.
    { unfold create_price_images.
      rewrite (tile_texts_to_float _ _ _ _ Hp).
      rewrite (tile_texts_not_finite _ _ _ Hfin). reflexivity. }
    destruct (to_float percent_change) as [fc|e] eqn:Hc; [exact Hraise|].
    pose proof (to_float_raises _ _ Hc) as ->. split; [reflexivity|].
    exact Hraise.
Qed.

Lemma drawn_text_timer (seconds_left : Z) :
  drawn_text (timer_image textbbox seconds_left)
  = int_str seconds_left ++ lit "s".
Proof.
  unfold drawn_text, timer_image.
  destruct (textbbox _ _) as [[[x0 y0] x1] y1]. reflexivity.
Qed.

End Rendered.

(** ** The device, write by write *)

Section Deck.

Variable textbbox : font -> str -> Z * Z * Z * Z.
Context {native : Type}.
Variable to_native_format : image -> native.
Implicit Types w : @world native.

Local Abbreviation key_total w := (Z.of_nat (length (keys w))).

Lemma set_key_image_written key (img : native) w :
  0 <= key <= key_total w ->
  set_key_image key img w = (Ok tt, after_write key img w).
Proof. apply set_key_image_accepted. Qed.

Lemma after_write_length key (img : native) w :
  length (keys (after_write key img w)) = length (keys w).
Proof. apply length_insert. Qed.



Lemma push_from_step i k img rest w :
  key_map !! i = Some k -> 0 <= k <= key_total w ->
  push_from to_native_format i (img :: rest) w
  = push_from to_native_format (S i) rest
      (after_write k (to_native_format img) w).
Proof.
  intros Hk Hrange. simpl. unfold bind, lift. rewrite Hk.
  rewrite (set_key_image_written _ _ _ Hrange). reflexivity.
Qed.


Lemma push_from_unmapped i img rest w :
  key_map !! i = None ->
  push_from to_native_format i (img :: rest) w = (Raise IndexError, w).
Proof. intros Hk. simpl. unfold bind, lift. rewrite Hk. reflexivity. Qed.

(** The deck after the six tiles were written, in the order of the
    program. *)
Lemma push_six (i1 i2 i3 i4 i5 i6 : image) (more : list image) w :
  9 <= key_total w ->
  push_to_streamdeck_tile_images to_native_format
    (i1 :: i2 :: i3 :: i4 :: i5 :: i6 :: more) w
  = push_from to_native_format 6 more
      (after_write 9 (to_native_format i6)
        (after_write 4 (to_native_format i5)
          (after_write 8 (to_native_format i4)
            (after_write 7 (to_native_format i3)
              (after_write 6 (to_native_format i2)
                (after_write 5 (to_native_format i1) w)))))).
Proof.
  intros Hn. unfold push_to_streamdeck_tile_images.
  rewrite (push_from_step 0 5) by (try reflexivity; lia).
  rewrite (push_from_step 1 6)
    by (try reflexivity; rewrite ?after_write_length; lia).
  rewrite (push_from_step 2 7)
    by (try reflexivity; rewrite ?after_write_length; lia).
  rewrite (push_from_step 3 8)
    by (try reflexivity; rewrite ?after_write_length; lia).
  rewrite (push_from_step 4 4)
    by (try reflexivity; rewrite ?after_write_length; lia).
  rewrite (push_from_step 5 9)
    by (try reflexivity; rewrite ?after_write_length; lia).
  reflexivity.
Qed.

Lemma six_writes_lookup (n1 n2 n3 n4 n5 n6 : native) w :
  10 <= key_total w ->
  let w' := after_write 9 n6 (after_write 4 n5 (after_write 8 n4
              (after_write 7 n3 (after_write 6 n2 (after_write 5 n1 w))))) in
  map (fun k => keys w' !! k) [5; 6; 7; 8; 4; 9]%nat
  = map Some [n1; n2; n3; n4; n5; n6]
  /\ (forall k : nat, (k < 4 \/ 9 < k)%nat -> keys w' !! k = keys w !! k)
  /\ length (keys w') = length (keys w).
Proof.
  intros Hn. simpl. split; [|split].
  - repeat (first [ rewrite list_lookup_insert_eq
                      by (rewrite ?length_insert; lia)
                  | rewrite list_lookup_insert_ne by lia ]).
    reflexivity.
  - intros k Hk. rewrite !list_lookup_insert_ne by lia. reflexivity.
  - rewrite !length_insert. reflexivity.
Qed.

(** X10. On a deck of at least ten keys, pushing the six tiles succeeds and
    writes them, converted to the native format, to the keys 5, 6, 7, 8, 4
    and 9 in that order; every other key keeps its bitmap. *)
Theorem push_six_tiles (i1 i2 i3 i4 i5 i6 : image) w :
  10 <= key_total w ->
  exists w',
    push_to_streamdeck_tile_images to_native_format [i1; i2; i3; i4; i5; i6] w
    = (Ok tt, w')
    /\ trace w'
       = trace w
         ++ [EvSetKeyImage 5 (to_native_format i1);
             EvSetKeyImage 6 (to_native_format i2);
             EvSetKeyImage 7 (to_native_format i3);
             EvSetKeyImage 8 (to_native_format i4);
             EvSetKeyImage 4 (to_native_format i5);
             EvSetKeyImage 9 (to_native_format i6)]
    /\ length (keys w') = length (keys w)
    /\ map (fun k => keys w' !! k) [5; 6; 7; 8; 4; 9]%nat
       = map (fun img => Some (to_native_format img)) [i1; i2; i3; i4; i5; i6]
    /\ (forall k : nat, (k < 4 \/ 9 < k)%nat -> keys w' !! k = keys w !! k).
Proof.
  intros Hn. eexists.
  split; [rewrite (push_six _ _ _ _ _ _ [] w ltac:(lia)); reflexivity|].
  split; [simpl; rewrite <- !app_assoc; reflexivity|].
  destruct (six_writes_lookup (to_native_format i1) (to_native_format i2)
              (to_native_format i3) (to_native_format i4)
              (to_native_format i5) (to_native_format i6) w Hn)
    as (Hlook & Hrest & Hlen).
  split; [exact Hlen|]. split; [exact Hlook | exact Hrest].
Qed.





(** X12. The key table has six entries: pushing more than six images writes
    the first six and raises [IndexError] at the seventh. *)
Theorem push_seventh_image (i1 i2 i3 i4 i5 i6 i7 : image)
    (more : list image) w :
  10 <= key_total w ->
  exists w6,
    push_to_streamdeck_tile_images to_native_format [i1; i2; i3; i4; i5; i6] w
    = (Ok tt, w6)
    /\ push_to_streamdeck_tile_images to_native_format
         (i1 :: i2 :: i3 :: i4 :: i5 :: i6 :: i7 :: more) w
       = (Raise IndexError, w6).
Proof.
  intros Hn. eexists. split.
  - rewrite (push_six _ _ _ _ _ _ [] w ltac:(lia)). reflexivity.
  - rewrite (push_six _ _ _ _ _ _ (i7 :: more) w ltac:(lia)).
    apply push_from_unmapped. reflexivity.
Qed.

End Deck.

(** ** The passes of the driver loop *)

Section Passes.

Variable textbbox : font -> str -> Z * Z * Z * Z.
Context {native : Type}.
Variable to_native_format : image -> native.
Implicit Types w : @world native.

Local Abbreviation key_total w := (Z.of_nat (length (keys w))).
Local Abbreviation tick :=
  (fun i => bind (update_timer textbbox to_native_format i)
              (fun _ => sleep 1)).
Local Abbreviation timer_events :=
  (flat_map (fun i => [timer_event textbbox to_native_format i;
                       @EvSleep native 1])).

Lemma range_down_refresh :
  range_down REFRESH_INTERVAL
  = [30; 29; 28; 27; 26; 25; 24; 23; 22; 21; 20; 19; 18; 17; 16; 15; 14; 13;
     12; 11; 10; 9; 8; 7; 6; 5; 4; 3; 2; 1].
Proof. reflexivity. Qed.

(** The timer loop over any list of seconds, on a deck that has key 10. *)
Lemma timer_loop (l : list Z) w :
  10 < key_total w ->
  exists w',
    for_each l tick w = (Ok tt, w')
    /\ http w' = http w /\ requests w' = requests w
    /\ keys w'
       = match last l with
         | Some i =>
             <[10%nat := to_native_format (timer_image textbbox i)]> (keys w)
         | None => keys w
         end
    /\ trace w' = trace w ++ timer_events l.
Proof.
  revert w. induction l as [|i l IH]; intros w Hn.
  - exists w. simpl. rewrite app_nil_r. auto.
  - simpl for_each. unfold bind at 1. unfold bind at 1. unfold update_timer.
    rewrite set_key_image_ok by lia. unfold sleep.
    set (w1 := emit (EvSleep 1) _).
    destruct (IH w1) as (w' & Hrun & Hhttp & Hreq & Hkeys & Htrace).
    { subst w1. simpl. rewrite length_insert. exact Hn. }
    exists w'. split; [exact Hrun|]. split; [exact Hhttp|].
    split; [exact Hreq|]. split.
    + rewrite Hkeys. subst w1. simpl keys.
      destruct l as [|j l]; [reflexivity|].
      change (last (i :: j :: l)) with (last (j :: l)).
      destruct (last (j :: l)) as [k|] eqn:E.
      * apply list_insert_insert_eq.
      * apply last_None in E. discriminate E.
    + rewrite Htrace. subst w1. simpl. unfold timer_event.
      rewrite <- !app_assoc. reflexivity.
Qed.

Lemma slept_timer_events (l : list Z) :
  slept (timer_events l) = Z.of_nat (length l).
Proof.
  induction l as [|i l IH]; [reflexivity|].
  change (slept (timer_events (i :: l))) with (1 + slept (timer_events l)).
  rewrite IH, length_cons. lia.
Qed.

(** X13. On a deck that has key 10 the wait phase succeeds: it shows the
    seconds left, 30 down to 1, on key 10 and sleeps one second after each,
    thirty seconds in all; it ends with ["1s"] on key 10 (never ["0s"]) and
    changes no other key. *)
Theorem countdown_phase w :
  10 < key_total w ->
  exists w',
    countdown textbbox to_native_format w = (Ok tt, w')
    /\ trace w' = trace w ++ timer_events (range_down REFRESH_INTERVAL)
    /\ slept (timer_events (range_down REFRESH_INTERVAL)) = 30
    /\ range_down REFRESH_INTERVAL
       = [30; 29; 28; 27; 26; 25; 24; 23; 22; 21; 20; 19; 18; 17; 16; 15; 14;
          13; 12; 11; 10; 9; 8; 7; 6; 5; 4; 3; 2; 1]
    /\ keys w'
       = <[10%nat := to_native_format (timer_image textbbox 1)]> (keys w)
    /\ drawn_text (timer_image textbbox 1) = lit "1s".
Proof.
  intros Hn. unfold countdown.
  destruct (timer_loop (range_down REFRESH_INTERVAL) w Hn)
    as (w' & Hrun & _ & _ & Hkeys & Htrace).
  exists w'. split; [exact Hrun|]. split; [exact Htrace|].
  split; [rewrite slept_timer_events; reflexivity|].
  split; [apply range_down_refresh|].
  split; [exact Hkeys | apply drawn_text_timer].
Qed.


(** *** A pass that displays a quote *)

(** A pass whose fetch returned a quote of numbers that print: the
    message, then the three device phases. *)
Lemma loop_body_display w w1 price trend change_24h p c fp fc images :
  fetch_price_and_trend w = (Ok (price, trend, change_24h), w1) ->
  is_none price = false ->
  format_operand price = Ok p -> to_float p = Ok fp ->
  format_operand change_24h = Ok c -> to_float c = Ok fc ->
  create_price_images textbbox p trend c = Ok images ->
  loop_body textbbox to_native_format w
  = bind (push_to_streamdeck_tile_images to_native_format images)
      (fun _ => bind (fill_unused_keys to_native_format used_keys)
         (fun _ => countdown textbbox to_native_format))
      (emit (EvPrint (MsgPrice (float_comma_2f fp) (float_plus_2f fc)
                        (arrow_of trend))) w1).
Proof.
  intros Hfetch Hnone Hp Hfp Hc Hfc Himages.
  unfold loop_body. unfold bind at 1. rewrite Hfetch, Hnone.
  unfold bind at 1. unfold lift at 1. rewrite Hp.
  unfold bind at 1. unfold lift at 1. unfold num_comma_2f. rewrite Hfp.
  simpl rbind.
  unfold bind at 1. unfold lift at 1. rewrite Hc.
  unfold bind at 1. unfold lift at 1. unfold num_plus_2f. rewrite Hfc.
  simpl rbind.
  unfold bind at 1. unfold print at 1.
  unfold bind at 1. unfold lift at 1. rewrite Himages.
  reflexivity.
Qed.

(** A pass whose quote cannot be printed raises before anything reaches
    the console or the device. *)
Lemma loop_body_price_overflow w w1 price trend change_24h p e :
  fetch_price_and_trend w = (Ok (price, trend, change_24h), w1) ->
  is_none price = false ->
  format_operand price = Ok p -> to_float p = Raise e ->
  loop_body textbbox to_native_format w = (Raise e, w1).
Proof.
  intros Hfetch Hnone Hp Hfp.
  unfold loop_body. unfold bind at 1. rewrite Hfetch, Hnone.
  unfold bind at 1. unfold lift at 1. rewrite Hp.
  unfold bind at 1. unfold lift at 1. unfold num_comma_2f. rewrite Hfp.
  reflexivity.
Qed.

(** A price that is an infinity or NaN is printed on the console; the
    pass raises where it builds the tiles, before any key is written. *)
Lemma loop_body_price_not_finite w w1 price trend change_24h p c fp fc :
  fetch_price_and_trend w = (Ok (price, trend, change_24h), w1) ->
  is_none price = false ->
  format_operand price = Ok p -> to_float p = Ok fp ->
  is_finite fp = false ->
  format_operand change_24h = Ok c -> to_float c = Ok fc ->
  loop_body textbbox to_native_format w
  = (Raise ValueError,
     emit (EvPrint (MsgPrice (float_comma_2f fp) (float_plus_2f fc)
                      (arrow_of trend))) w1).
Proof.
  intros Hfetch Hnone Hp Hfp Hfin Hc Hfc.
  unfold loop_body. unfold bind at 1. rewrite Hfetch, Hnone.
  unfold bind at 1. unfold lift at 1. rewrite Hp.
  unfold bind at 1. unfold lift at 1. unfold num_comma_2f. rewrite Hfp.
  simpl rbind.
  unfold bind at 1. unfold lift at 1. rewrite Hc.
  unfold bind at 1. unfold lift at 1. unfold num_plus_2f. rewrite Hfc.
  simpl rbind.
  unfold bind at 1. unfold print at 1.
  unfold bind at 1. unfold lift at 1.
  unfold create_price_images.
  rewrite (tile_texts_to_float _ _ _ _ Hfp).
  rewrite (tile_texts_not_finite _ _ _ Hfin). reflexivity.
Qed.

Lemma loop_body_not_number w w1 price trend change_24h e :
  fetch_price_and_trend w = (Ok (price, trend, change_24h), w1) ->
  is_none price = false ->
  format_operand price = Raise e ->
  loop_body textbbox to_native_format w = (Raise e, w1).
Proof.
  intros Hfetch Hnone Hp.
  unfold loop_body. unfold bind at 1. rewrite Hfetch, Hnone.
  unfold bind at 1. unfold lift at 1. rewrite Hp. reflexivity.
Qed.

End Passes.

Section PassResults.

Variable textbbox : font -> str -> Z * Z * Z * Z.
Context {native : Type}.
Variable to_native_format : image -> native.
Implicit Types w : @world native.

Local Abbreviation key_total w := (Z.of_nat (length (keys w))).
Local Abbreviation timer_events :=
  (flat_map (fun i => [timer_event textbbox to_native_format i;
                       @EvSleep native 1])).

(** X14. A pass whose fetch returned a quote of numbers that print as
    floats (ints within the float range, or floats), the price finite, on a
    deck of at least eleven keys, succeeds and leaves every key determined:
    keys 5, 6, 7, 8, 4 and 9 show the six tiles of the quote, key 10 shows
    the last countdown image (["1s"]), every other key holds the solid
    black 72x72 bitmap.  In order, the pass prints the price line, writes
    the six tiles, blanks the keys below 4 and above 10 and counts down. *)
Theorem display_pass_result w w1 price trend change_24h p c fp fc :
  fetch_price_and_trend w = (Ok (price, trend, change_24h), w1) ->
  is_none price = false ->
  format_operand price = Ok p -> to_float p = Ok fp ->
  is_finite fp = true ->
  format_operand change_24h = Ok c -> to_float c = Ok fc ->
  11 <= key_total w ->
  exists i1 i2 i3 i4 i5 i6 w',
    create_price_images textbbox p trend c = Ok [i1; i2; i3; i4; i5; i6]
    /\ loop_body textbbox to_native_format w = (Ok tt, w')
    /\ length (keys w') = length (keys w)
    /\ map (fun k => keys w' !! k) [5; 6; 7; 8; 4; 9; 10]%nat
       = map (fun img => Some (to_native_format img))
           [i1; i2; i3; i4; i5; i6; timer_image textbbox 1]
    /\ (forall k : nat,
          (k < length (keys w))%nat -> (k < 4 \/ 10 < k)%nat ->
          keys w' !! k = Some (to_native_format solid_black))
    /\ trace w'
       = trace w1
         ++ EvPrint (MsgPrice (float_comma_2f fp) (float_plus_2f fc)
                       (arrow_of trend))
            :: map (fun '(k, img) => EvSetKeyImage k (to_native_format img))
                 [(5, i1); (6, i2); (7, i3); (8, i4); (4, i5); (9, i6)]
         ++ map (fun k => EvSetKeyImage k (to_native_format solid_black))
              (List.filter (fun k => (k <? 4) || (10 <? k))
                 (seqZ 0 (key_total w)))
         ++ timer_events (range_down REFRESH_INTERVAL).
Proof.
  intros Hfetch Hnone Hp Hfp Hfin Hc Hfc Hn.
  destruct (create_price_images_six textbbox p trend c fp fc Hfp Hfin Hfc)
    as (i1 & i2 & i3 & i4 & i5 & i6 & Himages & _).
  exists i1, i2, i3, i4, i5, i6.
  rewrite (loop_body_display _ _ _ _ _ _ _ _ _ _ _ _
             Hfetch Hnone Hp Hfp Hc Hfc Himages).
  destruct (fetch_keys _ _ _ Hfetch) as (Hkeys & _).
  set (w2 := emit _ w1).
  assert (keys w2 = keys w) as Hkeys2 by exact Hkeys.
  unfold bind at 1.
  rewrite (push_six to_native_format i1 i2 i3 i4 i5 i6 [] w2)
    by (rewrite Hkeys2; lia).
  simpl push_from. unfold ret.
  set (w3 := after_write 9 _ _).
  assert (length (keys w3) = length (keys w)) as Hlen3
    by (subst w3; simpl; rewrite !length_insert; f_equal; exact Hkeys).
  destruct (fill_unused_keys_spec to_native_format used_keys w3)
    as (w4 & Hfill & Hlen4 & Htrace4 & Hblank & Hkeep).
  change (blank_native to_native_format)
    with (to_native_format solid_black) in Htrace4, Hblank.
  rewrite unused_keys_filter in Htrace4.
  unfold bind at 1. rewrite Hfill.
  destruct (timer_loop textbbox to_native_format
              (range_down REFRESH_INTERVAL) w4)
    as (w5 & Hrun & _ & _ & Hkeys5 & Htrace5); [lia|].
  unfold countdown. rewrite Hrun. exists w5.
  split; [exact Himages|]. split; [reflexivity|].
  change (last (range_down REFRESH_INTERVAL)) with (Some 1) in Hkeys5.
  split; [rewrite Hkeys5, length_insert; lia|].
  assert (forall k : nat, (4 <= k <= 9)%nat ->
            keys w5 !! k = keys w3 !! k) as Hused.
  { intros k Hk. rewrite Hkeys5, list_lookup_insert_ne by lia.
    rewrite <- (Nat2Z.id k). apply Hkeep; [lia|].
    apply used_keys_elem. lia. }
  destruct (six_writes_lookup (to_native_format i1) (to_native_format i2)
              (to_native_format i3) (to_native_format i4)
              (to_native_format i5) (to_native_format i6) w2)
    as (Hlook & _); [rewrite Hkeys2; lia|].
  cbv zeta in Hlook. fold w3 in Hlook.
  split; [|split].
  - change (map (fun k => keys w5 !! k) [5; 6; 7; 8; 4; 9; 10]%nat)
      with (map (fun k => keys w5 !! k) [5; 6; 7; 8; 4; 9]%nat
            ++ [keys w5 !! 10%nat]).
    change (map (fun img => Some (to_native_format img))
              [i1; i2; i3; i4; i5; i6; timer_image textbbox 1])
      with (map Some [to_native_format i1; to_native_format i2;
                      to_native_format i3; to_native_format i4;
                      to_native_format i5; to_native_format i6]
            ++ [Some (to_native_format (timer_image textbbox 1))]).
    rewrite <- Hlook. f_equal.
    + unfold map. rewrite !Hused by lia. reflexivity.
    + rewrite Hkeys5, list_lookup_insert_eq by lia. reflexivity.
  - intros k Hk Hout. rewrite Hkeys5, list_lookup_insert_ne by lia.
    rewrite <- (Nat2Z.id k). apply Hblank; [lia|].
    rewrite used_keys_elem. lia.
  - rewrite Htrace5, Htrace4, Hlen3. subst w3 w2. simpl.
    rewrite <- !app_assoc. reflexivity.
Qed.


(** X16. The fetcher does not check that the price is a number: when the
    body carries a string as price, beside a numeric change, the quote is
    returned, and the pass raises [ValueError] where it formats the price
    for the console.  Nothing is written to the device and the driver loop
    ends there. *)
Theorem text_price_stops_loop w r (m b : gmap string pyval) (s : str)
    (change : pynum) :
  http w (requests w) = Responded r -> status_code r ≠ 429 ->
  body r = Some (PyDict m) ->
  m !! "bitcoin"%string = Some (PyDict b) ->
  b !! "usd"%string = Some (PyStr s) ->
  b !! "usd_24h_change"%string = Some (PyNum change) ->
  fetch_price_and_trend w
  = (Ok (PyStr s, trend_of_change change, PyNum change), requested w)
  /\ loop_body textbbox to_native_format w = (Raise ValueError, requested w)
  /\ forall n,
       main_loop textbbox to_native_format (S n) w
       = (Raise ValueError, requested w).
Proof.
  intros Hhttp Hs Hb Hm Hprice Hchange.
  assert (fetch_price_and_trend w
          = (Ok (PyStr s, trend_of_change change, PyNum change), requested w))
    as Hfetch.
  { eapply fetch_well_formed; try eassumption; [discriminate | reflexivity]. }
  assert (loop_body textbbox to_native_format w
          = (Raise ValueError, requested w)) as Hbody
    by (eapply loop_body_not_number; [exact Hfetch | reflexivity..]).
  split; [exact Hfetch|]. split; [exact Hbody|].
  intros n. simpl main_loop. unfold bind. rewrite Hbody. reflexivity.
Qed.

(** X17. While every request meets no answer, a 429 or a body that is not
    JSON, the driver loop goes on, one request per pass, and the deck keeps
    showing what it showed: [n] passes make [n] requests and write no
    key. *)
Theorem outage_keeps_display (n : nat) w :
  (forall i, (requests w <= i)%nat ->
     http w i = ConnectionFailed
     \/ exists r, http w i = Responded r
                  /\ (status_code r = 429 \/ body r = None)) ->
  exists w' evs,
    main_loop textbbox to_native_format n w = (Ok tt, w')
    /\ keys w' = keys w /\ http w' = http w
    /\ requests w' = (requests w + n)%nat
    /\ trace w' = trace w ++ evs
    /\ Forall (fun e => forall k img, e ≠ EvSetKeyImage k img) evs.
Proof.
  revert w. induction n as [|n IH]; intros w Hout.
  - exists w, []. simpl. rewrite app_nil_r, Nat.add_0_r.
    repeat split. constructor.
  - assert (exists w1, fetch_price_and_trend w = (Ok unavailable, w1))
      as [w1 Hfetch].
    { destruct (Hout (requests w) ltac:(lia)) as [Hc | (r & Hr & Hbad)].
      - eexists. apply fetch_handles, fetch_body_no_answer, Hc.
      - destruct (Z.eq_dec (status_code r) 429) as [Hs|Hs].
        + eexists. eapply fetch_passes, fetch_body_rate_limited; eassumption.
        + destruct Hbad as [Hbad|Hbad]; [contradiction|].
          eexists. eapply fetch_handles, fetch_body_malformed; eassumption. }
    pose proof (loop_body_unavailable textbbox to_native_format _ _ Hfetch)
      as Hbody.
    destruct (fetch_keys _ _ _ Hfetch) as (Hkeys & Hreq & evs1 & Htrace & Hevs1).
    pose proof (fetch_http _ _ _ Hfetch) as Hhttp.
    set (w2 := emit (EvSleep REFRESH_INTERVAL) w1) in *.
    destruct (IH w2) as (w' & evs & Hrun & Hk & Hh & Hr & Ht & He).
    { intros i Hi. subst w2. simpl in *. rewrite Hhttp.
      apply Hout. lia. }
    exists w', (EvGet API_URL :: evs1 ++ EvSleep REFRESH_INTERVAL :: evs).
    split; [simpl main_loop; unfold bind; rewrite Hbody; exact Hrun|].
    split; [rewrite Hk; exact Hkeys|].
    split; [rewrite Hh; exact Hhttp|].
    split; [rewrite Hr; subst w2; simpl; lia|].
    split.
    + rewrite Ht. subst w2. simpl. rewrite Htrace.
      rewrite <- !app_assoc. reflexivity.
    + apply List.Forall_cons; [discriminate|].
      apply Forall_app. split; [exact Hevs1|].
      apply List.Forall_cons; [discriminate | exact He].
Qed.

(** X19. With the blank bitmap converted to the native format (the
    conversion is taken as a total function of the image; on a deck that
    has no key images it fails in the library, before any of this),
    [fill_unused_keys] raises no [IndexError], whatever the key count and
    the list of used keys: it visits the indices of the deck only.  It
    keeps the key count, sets every key of the deck outside the list to
    the solid black 72x72 bitmap, leaves the keys in the list as they
    were, and running it again changes no key. *)
Theorem fill_unused_keys_idempotent (used : list Z) w :
  exists w1 w2,
    fill_unused_keys to_native_format used w = (Ok tt, w1)
    /\ fill_unused_keys to_native_format used w1 = (Ok tt, w2)
    /\ length (keys w1) = length (keys w)
    /\ (forall k, 0 <= k < key_total w -> (k ∉ used) ->
          keys w1 !! Z.to_nat k = Some (to_native_format solid_black))
    /\ (forall k, 0 <= k -> (k ∈ used) ->
          keys w1 !! Z.to_nat k = keys w !! Z.to_nat k)
    /\ keys w2 = keys w1.
Proof.
  destruct (fill_unused_keys_spec to_native_format used w)
    as (w1 & Hrun1 & Hlen1 & _ & Hblank1 & Hkeep1).
  destruct (fill_unused_keys_spec to_native_format used w1)
    as (w2 & Hrun2 & Hlen2 & _ & Hblank2 & Hkeep2).
  exists w1, w2. split; [exact Hrun1|]. split; [exact Hrun2|].
  split; [exact Hlen1|]. split; [exact Hblank1|]. split; [exact Hkeep1|].
  apply list_eq. intros i.
  destruct (decide (i < length (keys w1))%nat) as [Hi|Hi].
  - rewrite <- (Nat2Z.id i).
    destruct (decide (Z.of_nat i ∈ used)) as [Hin|Hout].
    + apply Hkeep2; [lia | exact Hin].
    + rewrite Hblank2 by (try exact Hout; lia).
      rewrite Hblank1 by (try exact Hout; lia). reflexivity.
  - rewrite !lookup_ge_None_2 by lia. reflexivity.
Qed.

End PassResults.

(** ** The colour of a quote *)

Section Colours.

Variable textbbox : font -> str -> Z * Z * Z * Z.


End Colours.

(** ** The further properties on sample inputs *)

Lemma sample_data_asset price change_24h :
  sample_data price change_24h !! "bitcoin"%string
  = Some (PyDict (sample_asset price change_24h)).
Proof. apply lookup_singleton_eq. Qed.

Lemma sample_asset_usd price change_24h :
  sample_asset price change_24h !! "usd"%string = Some price.
Proof. apply lookup_insert_eq. Qed.

Lemma sample_asset_change price change_24h :
  sample_asset price change_24h !! "usd_24h_change"%string = Some change_24h.
Proof.
  unfold sample_asset. rewrite lookup_insert_ne by discriminate.
  apply lookup_singleton_eq.
Qed.

Lemma fetch_returns_quote_witness :
  exists w',
    fetch_price_and_trend
      (answering_world 15 (PyNum (1234567 # 100)) (PyNum (- (3 # 2))))
    = (Ok (PyNum (1234567 # 100), trend_of_change (- (3 # 2)),
           PyNum (- (3 # 2))), w')
    /\ trace w' = [EvGet API_URL]
    /\ keys w'
       = keys (answering_world 15 (PyNum (1234567 # 100)) (PyNum (- (3 # 2)))).
Proof.
  apply (fetch_returns_quote
           (answering_world 15 (PyNum (1234567 # 100)) (PyNum (- (3 # 2))))
           (sample_response (PyNum (1234567 # 100)) (PyNum (- (3 # 2))))
           (sample_data (PyNum (1234567 # 100)) (PyNum (- (3 # 2))))
           (sample_asset (PyNum (1234567 # 100)) (PyNum (- (3 # 2))))
           (PyNum (1234567 # 100)) (PyNum (- (3 # 2)))
           (PFloat (Finite (- (3 # 2))))).
  - reflexivity.
  - simpl. lia.
  - reflexivity.
  - apply sample_data_asset.
  - apply sample_asset_usd.
  - discriminate.
  - apply sample_asset_change.
  - reflexivity.
Defined.

Lemma fetch_change_not_number_witness :
  fetch_price_and_trend
    (answering_world 15 (PyNum (1234567 # 100)) (PyStr (lit "n/a")))
  = (Ok unavailable,
     emit (EvPrint (MsgFetchError TypeError))
       (requested
          (answering_world 15 (PyNum (1234567 # 100)) (PyStr (lit "n/a"))))).
Proof.
  apply (fetch_change_not_number
           (answering_world 15 (PyNum (1234567 # 100)) (PyStr (lit "n/a")))
           (sample_response (PyNum (1234567 # 100)) (PyStr (lit "n/a")))
           (sample_data (PyNum (1234567 # 100)) (PyStr (lit "n/a")))
           (sample_asset (PyNum (1234567 # 100)) (PyStr (lit "n/a")))
           (PyNum (1234567 # 100)) (PyStr (lit "n/a"))).
  - reflexivity.
  - simpl. lia.
  - reflexivity.
  - apply sample_data_asset.
  - apply sample_asset_usd.
  - discriminate.
  - apply sample_asset_change.
  - discriminate.
  - discriminate.
  - discriminate.
Defined.

Lemma push_six_tiles_witness :
  10 <= Z.of_nat (length (keys offline_world))
  /\ exists w',
       push_to_streamdeck_tile_images id sample_tiles offline_world
       = (Ok tt, w')
       /\ length (keys w') = length (keys offline_world).
Proof.
  split; [simpl; lia|].
  destruct (create_price_images_six sample_textbbox
              (PFloat (Finite (1234567 # 100))) 1 (PFloat (Finite (123 # 100)))
              (Finite (1234567 # 100)) (Finite (123 # 100))
              eq_refl eq_refl eq_refl)
    as (i1 & i2 & i3 & i4 & i5 & i6 & Himages & _).
  unfold sample_tiles. rewrite Himages.
  destruct (push_six_tiles id i1 i2 i3 i4 i5 i6 offline_world)
    as (w' & Hpush & _ & Hlen & _); [simpl; lia|].
  exists w'. split; [exact Hpush | exact Hlen].
Defined.


Lemma push_seventh_image_witness :
  10 <= Z.of_nat (length (keys offline_world))
  /\ exists w6,
       push_to_streamdeck_tile_images id sample_tiles offline_world
       = (Ok tt, w6)
       /\ push_to_streamdeck_tile_images id
            (sample_tiles ++ [timer_image sample_textbbox 1]) offline_world
          = (Raise IndexError, w6).
Proof.
  split; [simpl; lia|].
  destruct (create_price_images_six sample_textbbox
              (PFloat (Finite (1234567 # 100))) 1 (PFloat (Finite (123 # 100)))
              (Finite (1234567 # 100)) (Finite (123 # 100))
              eq_refl eq_refl eq_refl)
    as (i1 & i2 & i3 & i4 & i5 & i6 & Himages & _).
  unfold sample_tiles. rewrite Himages.
  apply (push_seventh_image id i1 i2 i3 i4 i5 i6
           (timer_image sample_textbbox 1) [] offline_world).
  simpl. lia.
Defined.

Lemma countdown_phase_witness :
  10 < Z.of_nat (length (keys offline_world))
  /\ exists w',
       countdown sample_textbbox id offline_world = (Ok tt, w')
       /\ keys w'
          = <[10%nat := timer_image sample_textbbox 1]> (keys offline_world).
Proof.
  split; [simpl; lia|].
  destruct (countdown_phase sample_textbbox id offline_world)
    as (w' & Hrun & _ & _ & _ & Hkeys & _); [simpl; lia|].
  exists w'. split; [exact Hrun | exact Hkeys].
Defined.

Lemma display_pass_result_witness :
  let w := answering_world 15 (PyNum (1234567 # 100)) (PyNum (- (3 # 2))) in
  fetch_price_and_trend w
  = (Ok (PyNum (1234567 # 100), -1, PyNum (- (3 # 2))), requested w)
  /\ 11 <= Z.of_nat (length (keys w))
  /\ exists w',
       loop_body sample_textbbox id w = (Ok tt, w')
       /\ length (keys w') = length (keys w)
       /\ (forall k : nat,
             (k < length (keys w))%nat -> (k < 4 \/ 10 < k)%nat ->
             keys w' !! k = Some solid_black).
Proof.
  intros w.
  assert (fetch_price_and_trend w
          = (Ok (PyNum (1234567 # 100), -1, PyNum (- (3 # 2))), requested w))
    as Hfetch by (vm_compute; reflexivity).
  split; [exact Hfetch|]. split; [simpl; lia|].
  destruct (display_pass_result sample_textbbox id w (requested w)
              (PyNum (1234567 # 100)) (-1) (PyNum (- (3 # 2)))
              (PFloat (Finite (1234567 # 100))) (PFloat (Finite (- (3 # 2))))
              (Finite (1234567 # 100)) (Finite (- (3 # 2))) Hfetch)
    as (i1 & i2 & i3 & i4 & i5 & i6 & w' & _ & Hbody & Hlen & _ & Hblank & _);
    [reflexivity | reflexivity | reflexivity | reflexivity | reflexivity
    | reflexivity | simpl; lia |].
  exists w'. split; [exact Hbody|]. split; [exact Hlen | exact Hblank].
Defined.


Lemma text_price_stops_loop_witness :
  let w := answering_world 15 (PyStr (lit "n/a")) (PyNum (1 # 2)) in
  loop_body sample_textbbox id w = (Raise ValueError, requested w).
Proof.
  intros w.
  destruct (text_price_stops_loop sample_textbbox id w
              (sample_response (PyStr (lit "n/a")) (PyNum (1 # 2)))
              (sample_data (PyStr (lit "n/a")) (PyNum (1 # 2)))
              (sample_asset (PyStr (lit "n/a")) (PyNum (1 # 2)))
              (lit "n/a") (1 # 2)) as (_ & Hbody & _).
  - reflexivity.
  - simpl. lia.
  - reflexivity.
  - apply sample_data_asset.
  - apply sample_asset_usd.
  - apply sample_asset_change.
  - exact Hbody.
Defined.

Lemma outage_keeps_display_witness :
  exists w' evs,
    main_loop sample_textbbox id 3 offline_world = (Ok tt, w')
    /\ keys w' = keys offline_world /\ http w' = http offline_world
    /\ requests w' = 3%nat
    /\ trace w' = evs
    /\ Forall (fun e => forall k img, e ≠ EvSetKeyImage k img) evs.
Proof.
  apply (outage_keeps_display sample_textbbox id 3 offline_world).
  intros i _. left. reflexivity.
Defined.

Lemma loop_body_rate_limited_witness :
  exists w',
    loop_body sample_textbbox id rate_limited_world = (Ok tt, w')
    /\ keys w' = keys rate_limited_world
    /\ trace w'
       = [EvGet API_URL; EvPrint MsgRateLimit; EvSleep 60;
          EvSleep REFRESH_INTERVAL].
Proof.
  apply (loop_body_rate_limited sample_textbbox id rate_limited_world
           {| status_code := 429; body := None |}); reflexivity.
Defined.

(** ** Quotes that are numbers but not finite floats *)

(** A percent change of NaN passes the fetcher with trend 0, is printed as
    ["+nan"] and shown on the percent tile as ["+nan%"]. *)
Example nan_change_is_displayed :
  let w := answering_world 15 (PyNum (1234567 # 100)) (PyNum NaN) in
  fst (fetch_price_and_trend w)
  = Ok (PyNum (1234567 # 100), 0, PyNum NaN)
  /\ fst (loop_body sample_textbbox id w) = Ok tt
  /\ drawn_text <$> keys (snd (loop_body sample_textbbox id w)) !! 4%nat
     = Some (lit "+nan%")
  /\ trace (snd (loop_body sample_textbbox id w)) !! 1%nat
     = Some (EvPrint (MsgPrice (lit "12,345.67") (lit "+nan") (lit "-"))).
Proof. vm_compute. repeat split. Qed.

(** An infinite price passes the fetcher and is printed as ["inf"]; the
    pass raises where the tiles are built, and no key is written. *)
Example infinite_price_stops_pass :
  let w := answering_world 15 (PyNum PosInf) (PyNum (1 # 2)) in
  loop_body sample_textbbox id w
  = (Raise ValueError,
     emit (EvPrint (MsgPrice (lit "inf") (lit "+0.50") (lit "▲")))
       (requested w)).
Proof. vm_compute. reflexivity. Qed.

(** A price that is an int beyond the float range stops the pass at the
    console line, before anything is printed. *)
Example huge_price_stops_pass :
  let w := answering_world 15 (PyNum (PInt (10 ^ 400))) (PyNum (1 # 2)) in
  loop_body sample_textbbox id w = (Raise OverflowError, requested w).
Proof. vm_compute. reflexivity. Qed.

(** On a deck of nine keys the arrow tile is sent to the index 9, which the
    device library lets pass, and reaches no key; the pass then raises at
    the countdown. *)
Example nine_keys_lose_the_arrow :
  let w := answering_world 9 (PyNum (1234567 # 100)) (PyNum (1 # 2)) in
  fst (loop_body sample_textbbox id w) = Raise IndexError
  /\ map (fun img => drawn_text img) (keys (snd (loop_body sample_textbbox id w)))
     = strs [""; ""; ""; ""; "+0.50%"; "$1"; "2,"; "345"; ".67"].
Proof. vm_compute. repeat split. Qed.
